(** * The Item Service of [server.js]

    A shallow embedding of the Express application of [src/server.js]:
    the six route handlers, over a model of what they call into
    (body-parser's parsed JSON, the Mongoose model [Item] declared with
    [new mongoose.Schema({ name: String })], bson's [ObjectId], the
    prom-client default registry), followed by the properties of the
    service's HTTP contract.

    Everything the handlers cannot decide themselves reaches them through
    an explicit environment [Env] (the wall clock read by [Date.now()], a
    failure of the database driver) and an explicit [World] (the [items]
    collection and the process-wide state of the libraries).  The
    documentation served under [/api-docs] and the listener itself take
    no part in what follows. *)

From Stdlib Require Import List String Ascii NArith ZArith Bool Lia DecimalString.
Import ListNotations.
Local Open Scope string_scope.

(** ** JSON values, as [bodyParser.json()] hands them to a handler *)

Module Js.

(** A value produced by [JSON.parse].  A number is kept as the text
    [Number.prototype.toString] gives for it (["42"], ["1.5"]), which is all
    the service ever does with a number.  An object lists its members in
    the order of the text. *)
#[local] Unset Elimination Schemes.
Inductive Json : Type :=
| JNull
| JBool (b : bool)
| JNumber (text : string)
| JString (s : string)
| JArray (elems : list Json)
| JObject (fields : list (string * Json)).
#[local] Set Elimination Schemes.

(** The own property [key] of a parsed object: as in [JSON.parse], a
    later member overrides an earlier one of the same key. *)
Fixpoint lookup (key : string) (fields : list (string * Json)) : option Json :=
  match fields with
  | [] => None
  | (k, v) :: rest =>
      match lookup key rest with
      | Some later => Some later
      | None => if String.eqb k key then Some v else None
      end
  end.

(** [v.key] for a property that no prototype defines ([name], [_id]):
    [None] is [undefined]; reading a property of [null] throws, which is
    the [None] of the outer option. *)
Definition prop (v : Json) (key : string) : option (option Json) :=
  match v with
  | JNull => None
  | JObject fields => Some (lookup key fields)
  | _ => Some None
  end.

End Js.
Export Js.

(** ** bson: [ObjectId] *)

Module Bson.

(** The twelve bytes of an ObjectId, read as one big-endian number. *)
Definition ObjectId : Type := N.

Definition hex_digit (d : N) : ascii :=
  ascii_of_N (if d <? 10 then 48 + d else 87 + d)%N.

(** [digits] lower-case hexadecimal digits of [v], most significant first. *)
Fixpoint to_hex (digits : nat) (v : N) : string :=
  match digits with
  | O => EmptyString
  | S k => to_hex k (v / 16)%N ++ String (hex_digit (v mod 16)%N) EmptyString
  end.

(** [ObjectId.prototype.toHexString] (also what [toJSON] sends to a client). *)
Definition toHexString (id : ObjectId) : string := to_hex 24 id.

Definition hex_value (c : ascii) : option N :=
  let n := N_of_ascii c in
  if ((48 <=? n) && (n <=? 57))%N then Some (n - 48)%N
  else if ((97 <=? n) && (n <=? 102))%N then Some (n - 87)%N
  else if ((65 <=? n) && (n <=? 70))%N then Some (n - 55)%N
  else None.

Fixpoint parse_hex (s : string) (acc : N) : option N :=
  match s with
  | EmptyString => Some acc
  | String c rest =>
      match hex_value c with
      | Some d => parse_hex rest (acc * 16 + d)%N
      | None => None
      end
  end.

(** [new ObjectId(s)] for a string [s]: twenty-four hexadecimal characters
    or an error ([None]), as bson has it since version 5. *)
Definition fromString (s : string) : option ObjectId :=
  if Nat.eqb (String.length s) 24 then parse_hex s 0%N else None.

(** The process-wide state of the generator: the counter [ObjectId.index]
    and the five random bytes [PROCESS_UNIQUE]. *)
Record State : Type := mkState { index : N; process_unique : N }.

(** [ObjectId.getInc]. *)
Definition getInc (st : State) : N := ((index st + 1) mod 16777215)%N.

(** [ObjectId.generate(time)]: a 4-byte big-endian count of seconds, the
    5 bytes of [PROCESS_UNIQUE], a 3-byte counter. *)
Definition generate (time : Z) (unique inc : N) : ObjectId :=
  (Z.to_N (time mod 2 ^ 32) * 2 ^ 64 + (unique mod 2 ^ 40) * 2 ^ 24 + inc mod 2 ^ 24)%N.

(** [new ObjectId()] at clock reading [now] (milliseconds). *)
Definition newObjectId (now : Z) (st : State) : ObjectId * State :=
  let inc := getInc st in
  (generate (now / 1000) (process_unique st) inc, mkState inc (process_unique st)).

End Bson.

(** ** Mongoose: the [Item] model over the [items] collection *)

Module Mongoose.
Import Bson.

(** A document of the collection: the identifier and the one path the
    schema declares.  [name = None] is a document without the field; the
    version key, which no route reads or changes, is left out. *)
Record Doc : Type := mkDoc { _id : ObjectId; name : option Json }.

Inductive Error : Type :=
| CastError (kind : string) (value : Json) (path : string)
| ValidationError (path : string) (reason : Error)
| DuplicateKey (id : ObjectId)
| TypeError (property : string)    (* reading [property] of null *)
| DriverError (text : string).

Inductive Result (A : Type) : Type :=
| Ok (a : A)
| Throw (e : Error).
Arguments Ok {A} a.
Arguments Throw {A} e.

(** The model operations the routes invoke, as the trace records them. *)
Inductive Call : Type :=
| Save (doc : Doc)
| Find
| FindByIdAndUpdate (id : string) (new_name : option Json)
| FindByIdAndDelete (id : string).

(** The storage layer: the [items] collection in natural order, and the
    trace of the model operations invoked so far, newest first. *)
Record Db : Type := mkDb { docs : list Doc; calls : list Call }.

Definition record (c : Call) (db : Db) : Db := mkDb (docs db) (c :: calls db).

(** [castString] of [lib/cast/string.js], as [SchemaString.prototype.cast]
    wraps it: nullish values pass, a value carrying a non-empty string
    [_id] becomes that string, a value with a [toString] of its own
    (number, boolean) becomes its text, and a plain object or an array is
    a [CastError]. *)
Definition castString (path : string) (v : Json) : Result Json :=
  match v with
  | JNull => Ok JNull
  | JString s => Ok (JString s)
  | JNumber text => Ok (JString text)
  | JBool b => Ok (JString (if b then "true" else "false"))
  | JObject fields =>
      match lookup "_id" fields with
      | Some (JString (String c s)) => Ok (JString (String c s))
      | _ => Throw (CastError "string" v path)
      end
  | JArray _ => Throw (CastError "string" v path)
  end.

(** [castObjectId] on a route parameter. *)
Definition castObjectId (id : string) : Result ObjectId :=
  match fromString id with
  | Some oid => Ok oid
  | None => Throw (CastError "ObjectId" (JString id) "_id")
  end.

(** A document under construction: its fields and the cast error recorded
    against it by [Document.prototype.invalidate], if any. *)
Record Document : Type := mkDocument { fields : Doc; invalid : option Error }.

(** [new Item({ name })] with the identifier generated for it: [name] is
    set through the schema's String caster, and an [undefined] name sets
    nothing. *)
Definition new_Item (id : ObjectId) (nm : option Json) : Document :=
  match nm with
  | None => mkDocument (mkDoc id None) None
  | Some v =>
      match castString "name" v with
      | Ok s => mkDocument (mkDoc id (Some s)) None
      | Throw e => mkDocument (mkDoc id None) (Some e)
      end
  end.

Definition has_id (oid : ObjectId) (d : Doc) : bool := N.eqb (_id d) oid.

(** The operations below take the driver's behaviour on their one
    command as [fault]: [None] when the command reaches the database,
    [Some e] when the driver raises [e] (connection lost, timeout). *)

(** [item.save()] of a new document: validation, then one insert, which
    the unique index on [_id] refuses for an identifier already present. *)
Definition save (fault : option Error) (item : Document) (db : Db) : Result Doc * Db :=
  let db' := record (Save (fields item)) db in
  match invalid item with
  | Some e => (Throw (ValidationError "name" e), db')
  | None =>
      match fault with
      | Some e => (Throw e, db')
      | None =>
          if existsb (has_id (_id (fields item))) (docs db)
          then (Throw (DuplicateKey (_id (fields item))), db')
          else (Ok (fields item), mkDb (docs db ++ [fields item]) (calls db'))
      end
  end.

(** [Item.find()]: every document. *)
Definition find (fault : option Error) (db : Db) : Result (list Doc) * Db :=
  let db' := record Find db in
  match fault with
  | Some e => (Throw e, db')
  | None => (Ok (docs db), db')
  end.

(** The first document with the identifier, replaced by [f] of it. *)
Fixpoint update_first (oid : ObjectId) (f : Doc -> Doc) (ds : list Doc) : list Doc :=
  match ds with
  | [] => []
  | d :: rest => if has_id oid d then f d :: rest else d :: update_first oid f rest
  end.

Fixpoint remove_first (oid : ObjectId) (ds : list Doc) : list Doc :=
  match ds with
  | [] => []
  | d :: rest => if has_id oid d then rest else d :: remove_first oid rest
  end.

Definition set_name (v : Json) (d : Doc) : Doc := mkDoc (_id d) (Some v).

(** [Item.findByIdAndUpdate(id, { name }, { new: true })].  The filter and
    the update are cast first.  An [undefined] name is stripped from the
    update (Mongoose 6 and later), and an update left empty is answered by
    a plain [findOne]; otherwise the command is [$set: { name }] and the
    document is read back after it. *)
Definition findByIdAndUpdate (fault : option Error) (id : string) (nm : option Json)
    (db : Db) : Result (option Doc) * Db :=
  let db' := record (FindByIdAndUpdate id nm) db in
  match castObjectId id with
  | Throw e => (Throw e, db')
  | Ok oid =>
      match nm with
      | None =>
          match fault with
          | Some e => (Throw e, db')
          | None => (Ok (List.find (has_id oid) (docs db)), db')
          end
      | Some v =>
          match castString "name" v with
          | Throw e => (Throw e, db')
          | Ok s =>
              match fault with
              | Some e => (Throw e, db')
              | None =>
                  (Ok (option_map (set_name s) (List.find (has_id oid) (docs db))),
                   mkDb (update_first oid (set_name s) (docs db)) (calls db'))
              end
          end
      end
  end.

(** [Item.findByIdAndDelete(id)]: the document removed, or [null]. *)
Definition findByIdAndDelete (fault : option Error) (id : string) (db : Db)
  : Result (option Doc) * Db :=
  let db' := record (FindByIdAndDelete id) db in
  match castObjectId id with
  | Throw e => (Throw e, db')
  | Ok oid =>
      match fault with
      | Some e => (Throw e, db')
      | None =>
          (Ok (List.find (has_id oid) (docs db)),
           mkDb (remove_first oid (docs db)) (calls db'))
      end
  end.

(** Mongoose's wrapper of the driver's collection draws an operation
    identifier, [new ObjectId()], each time one of its methods is called,
    whether or not the command then succeeds.  An operation stopped
    before that (a failed validation, a failed cast) calls none: the
    three tests below say which operations get as far as the collection;
    [Item.find()] always does. *)
Definition operation_id (now : Z) (reached : bool) (st : Bson.State) : Bson.State :=
  if reached then snd (newObjectId now st) else st.

Definition save_reaches (item : Document) : bool :=
  match invalid item with
  | None => true
  | Some _ => false
  end.

Definition update_reaches (id : string) (nm : option Json) : bool :=
  match castObjectId id, nm with
  | Throw _, _ => false
  | Ok _, None => true
  | Ok _, Some v =>
      match castString "name" v with
      | Ok _ => true
      | Throw _ => false
      end
  end.

Definition delete_reaches (id : string) : bool :=
  match castObjectId id with
  | Ok _ => true
  | Throw _ => false
  end.

End Mongoose.

(** ** prom-client: the default registry *)

Module Prom.

(** [Registry.PROMETHEUS_CONTENT_TYPE]. *)
Definition contentType : string := "text/plain; version=0.0.4; charset=utf-8".

Definition LF : string := String "010"%char EmptyString.

(** [register.metrics()] (prom-client 13 and later): the blocks of the
    registered metrics, one per metric as [getMetricsAsString] renders it,
    separated by an empty line and closed by a line feed. *)
Definition metrics (registered : list string) : string :=
  String.concat (LF ++ LF) registered ++ LF.

(** Whether an exposition has the metric [metric] anywhere in its text. *)
Definition mentions (metric text : string) : bool :=
  match String.index 0 metric text with
  | Some _ => true
  | None => false
  end.

(** Some of the process metrics [collectDefaultMetrics()] registers. *)
Definition default_process_metrics : list string :=
  [ "process_cpu_user_seconds_total"; "process_cpu_system_seconds_total";
    "process_cpu_seconds_total"; "process_start_time_seconds";
    "process_resident_memory_bytes" ].

End Prom.

(** ** The application: [server.js] *)

Module Server.
Import Bson Mongoose.

(** What is handed to [res.json] or [res.end], by shape. *)
Inductive Body : Type :=
| Fast (message : string) (timestamp : Z)     (* { message, timestamp } *)
| MessageItem (message : string) (item : Doc) (* { message, item } *)
| Items (items : list Doc)                    (* the array of documents *)
| Message (message : string)                  (* { message } *)
| ErrorBody (error : string)                  (* { error } *)
| Text (content_type text : string).          (* res.set + res.end *)

Record Response : Type := mkResponse { status : nat; body : Body }.

Inductive Request : Type :=
| GetFast
| PostItems (body : Json)
| GetItems
| PutItem (id : string) (body : Json)
| DeleteItem (id : string)
| GetMetrics.

(** What a request meets outside the program: the clock read by
    [Date.now()], in milliseconds, and the behaviour of the database
    driver on the request's command. *)
Record Env : Type := mkEnv { now : Z; driver_fault : option Error }.

(** The state that outlives a request: the storage layer, bson's
    generator, and prom-client's default registry (one rendered block per
    registered metric). *)
Record World : Type := mkWorld {
  db : Db;
  bson : Bson.State;
  registry : list string
}.

(** The process as [server.js] leaves it once loaded, over whatever the
    collection holds: nothing is registered with prom-client. *)
Definition startup (stored : list Doc) (generator : Bson.State) : World :=
  mkWorld (mkDb stored []) generator [].

(** What [bodyParser.json()], strict as it is by default, hands to a
    handler as [req.body]: an object or an array.  A request whose JSON
    text is anything else is answered by the middleware and reaches no
    handler. *)
Definition strict_json (body : Json) : bool :=
  match body with
  | JObject _ | JArray _ => true
  | _ => false
  end.

(** [req.body.name], which throws on a [null] body. *)
Definition body_name (body : Json) : Result (option Json) :=
  match prop body "name" with
  | Some nm => Ok nm
  | None => Throw (TypeError "name")
  end.

Section Routes.

(** [error.message]: the text the libraries format for an error. *)
Variable message : Error -> string.

Definition internal_error (e : Error) : Response :=
  mkResponse 500 (ErrorBody (message e)).

(** [app.get("/fast", ...)] *)
Definition get_fast (env : Env) (w : World) : Response * World :=
  (mkResponse 200 (Fast "Fast API Response" (now env)), w).

(** [app.post("/items", ...)] *)
Definition post_items (env : Env) (body : Json) (w : World) : Response * World :=
  match body_name body with
  | Throw e => (internal_error e, w)
  | Ok nm =>
      let (id, drawn) := newObjectId (now env) (bson w) in
      let item := new_Item id nm in
      let generator := operation_id (now env) (save_reaches item) drawn in
      match save (driver_fault env) item (db w) with
      | (Throw e, db') => (internal_error e, mkWorld db' generator (registry w))
      | (Ok saved, db') =>
          (mkResponse 201 (MessageItem "Item created" saved),
           mkWorld db' generator (registry w))
      end
  end.

(** [app.get("/items", ...)] *)
Definition get_items (env : Env) (w : World) : Response * World :=
  let generator := operation_id (now env) true (bson w) in
  match find (driver_fault env) (db w) with
  | (Throw e, db') => (internal_error e, mkWorld db' generator (registry w))
  | (Ok items, db') => (mkResponse 200 (Items items), mkWorld db' generator (registry w))
  end.

(** [app.put("/items/:id", ...)] *)
Definition put_item (env : Env) (id : string) (body : Json) (w : World)
  : Response * World :=
  match body_name body with
  | Throw e => (internal_error e, w)
  | Ok nm =>
      let generator := operation_id (now env) (update_reaches id nm) (bson w) in
      match findByIdAndUpdate (driver_fault env) id nm (db w) with
      | (Throw e, db') => (internal_error e, mkWorld db' generator (registry w))
      | (Ok None, db') =>
          (mkResponse 404 (Message "Item not found"), mkWorld db' generator (registry w))
      | (Ok (Some item), db') =>
          (mkResponse 200 (MessageItem "Item updated" item),
           mkWorld db' generator (registry w))
      end
  end.

(** [app.delete("/items/:id", ...)] *)
Definition delete_item (env : Env) (id : string) (w : World) : Response * World :=
  let generator := operation_id (now env) (delete_reaches id) (bson w) in
  match findByIdAndDelete (driver_fault env) id (db w) with
  | (Throw e, db') => (internal_error e, mkWorld db' generator (registry w))
  | (Ok None, db') =>
      (mkResponse 404 (Message "Item not found"), mkWorld db' generator (registry w))
  | (Ok (Some _), db') =>
      (mkResponse 200 (Message "Item deleted"), mkWorld db' generator (registry w))
  end.

(** [app.get("/metrics", ...)] *)
Definition get_metrics (env : Env) (w : World) : Response * World :=
  (mkResponse 200 (Text Prom.contentType (Prom.metrics (registry w))), w).

(** The router: one handler per route. *)
Definition handle (env : Env) (req : Request) (w : World) : Response * World :=
  match req with
  | GetFast => get_fast env w
  | PostItems body => post_items env body w
  | GetItems => get_items env w
  | PutItem id body => put_item env id body w
  | DeleteItem id => delete_item env id w
  | GetMetrics => get_metrics env w
  end.

(** Requests served one after the other, each in its own environment. *)
Fixpoint serve (reqs : list (Env * Request)) (w : World) : list Response * World :=
  match reqs with
  | [] => ([], w)
  | (env, req) :: rest =>
      let (r, w1) := handle env req w in
      let (rs, w2) := serve rest w1 in
      (r :: rs, w2)
  end.

End Routes.

(** The routes over the collection. *)
Definition items_route (req : Request) : bool :=
  match req with
  | PostItems _ | GetItems | PutItem _ _ | DeleteItem _ => true
  | GetFast | GetMetrics => false
  end.

Definition raised {A : Type} (outcome : Result A * Db) : option Error :=
  match fst outcome with
  | Throw e => Some e
  | Ok _ => None
  end.

(** The error raised by the model operation in a route's [try] block, if
    it raises: [item.save()], [Item.find()], [Item.findByIdAndUpdate] or
    [Item.findByIdAndDelete], on the arguments the route passes. *)
Definition storage_error (env : Env) (req : Request) (w : World) : option Error :=
  match req with
  | PostItems body =>
      match body_name body with
      | Ok nm =>
          raised (save (driver_fault env)
                    (new_Item (fst (newObjectId (now env) (bson w))) nm) (db w))
      | Throw _ => None
      end
  | GetItems => raised (find (driver_fault env) (db w))
  | PutItem id body =>
      match body_name body with
      | Ok nm => raised (findByIdAndUpdate (driver_fault env) id nm (db w))
      | Throw _ => None
      end
  | DeleteItem id => raised (findByIdAndDelete (driver_fault env) id (db w))
  | GetFast | GetMetrics => None
  end.

(** The timestamp of a [/fast] answer. *)
Definition timestamp_of (r : Response) : option Z :=
  match body r with
  | Fast _ t => Some t
  | _ => None
  end.

End Server.

(** ** Start-up: the port, and the address the documentation names *)

Module Config.

(** [process.env], and a parsed [.env] file: the value of a variable, if
    it is defined. *)
Definition Variables : Type := string -> option string.

(** [require("dotenv").config()]: a variable of the file is set unless
    [process.env] defines it already. *)
Definition dotenv_config (file env : Variables) : Variables :=
  fun key =>
    match env key with
    | Some v => Some v
    | None => file key
    end.

(** A value of [PORT]: the text of the variable, or the number. *)
Inductive Port : Type :=
| PortText (text : string)
| PortNumber (n : N).

(** [process.env.PORT || 3000]: an undefined variable and an empty one
    are both falsy. *)
Definition PORT (env : Variables) : Port :=
  match env "PORT" with
  | Some (String c rest) => PortText (String c rest)
  | _ => PortNumber 3000
  end.

(** [PORT] inside a template literal. *)
Definition port_text (p : Port) : string :=
  match p with
  | PortText text => text
  | PortNumber n => NilEmpty.string_of_uint (N.to_uint n)
  end.

(** The template [http://localhost:${PORT}] of both files. *)
Definition localhost (p : Port) : string := "http://localhost:" ++ port_text p.

(** [swaggerOptions] of swagger.js. *)
Record SwaggerOptions : Type := mkSwaggerOptions {
  openapi : string;
  title : string;
  version : string;
  description : string;
  servers : list string;      (* the [url] of each server *)
  apis : list string
}.

(** swagger.js, loaded: [dotenv.config()], then [PORT], then the
    options; the environment it leaves behind comes with them. *)
Definition swagger (file env : Variables) : SwaggerOptions * Variables :=
  let env1 := dotenv_config file env in
  (mkSwaggerOptions "3.0.0" "Performance Test API" "1.0.0"
     "API for performance testing with different loads"
     [localhost (PORT env1)] ["./server.js"],
   env1).

(** What server.js settles while it loads: the options swagger.js built,
    the port handed to [app.listen], and the two addresses of the start-up
    log (the service and its documentation). *)
Record Boot : Type := mkBoot {
  documented : SwaggerOptions;
  listen : Port;
  service_address : string;
  docs_address : string
}.

(** server.js, loaded: swagger.js is required first, then
    [dotenv.config()] runs again, then [PORT] is read.  The other modules
    required in between (db.js among them) are taken to leave the
    variable PORT alone. *)
Definition boot (file env : Variables) : Boot :=
  let (options, env1) := swagger file env in
  let env2 := dotenv_config file env1 in
  let port := PORT env2 in
  mkBoot options port (localhost port) (localhost port ++ "/api-docs").

End Config.

(** ** Observations on the collection *)

Module Collection.
Import Bson Mongoose.

(** The identifiers of the collection, in its order. *)
Definition ids (ds : list Doc) : list ObjectId := map _id ds.

(** What the schema's String path lets a document hold as name: nothing,
    null, or a string. *)
Definition schema_name (d : Doc) : bool :=
  match name d with
  | None | Some JNull | Some (JString _) => true
  | Some _ => false
  end.

(** What a request can have done to the collection [ds], with the answer
    it got: nothing, one document appended, the name of the first
    document of an identifier set, or that document removed. *)
Inductive Effect (ds : list Doc) : Server.Request -> Server.Response -> list Doc -> Prop :=
| Unchanged (req : Server.Request) (r : Server.Response) :
    Server.status r = 200 \/ Server.status r = 404 \/ Server.status r = 500 ->
    Effect ds req r ds
| Created (payload : Json) (d : Doc) :
    existsb (has_id (_id d)) ds = false ->
    schema_name d = true ->
    Effect ds (Server.PostItems payload)
      (Server.mkResponse 201 (Server.MessageItem "Item created" d)) (ds ++ [d])
| Updated (id : string) (payload : Json) (oid : ObjectId) (s : Json) (item : Doc) :
    castObjectId id = Ok oid ->
    List.find (has_id oid) ds = Some item ->
    schema_name (set_name s item) = true ->
    Effect ds (Server.PutItem id payload)
      (Server.mkResponse 200 (Server.MessageItem "Item updated" (set_name s item)))
      (update_first oid (set_name s) ds)
| Deleted (id : string) (oid : ObjectId) (item : Doc) :
    castObjectId id = Ok oid ->
    List.find (has_id oid) ds = Some item ->
    Effect ds (Server.DeleteItem id)
      (Server.mkResponse 200 (Server.Message "Item deleted")) (remove_first oid ds).

End Collection.

(** ** Closed inputs for the examples *)

Module Samples.
Import Bson Mongoose Server.

(** A rendering of [error.message]: the class of the error, and the text
    of an error that carries one. *)
Definition sample_message (e : Error) : string :=
  match e with
  | CastError kind _ path => "CastError: " ++ kind ++ " at " ++ path
  | ValidationError path _ => "ValidationError: " ++ path
  | DuplicateKey _ => "MongoServerError: E11000"
  | TypeError property => "TypeError: reading " ++ property
  | DriverError text => text
  end.

(** A process just started on an empty collection, one started on a
    collection of two items, and an environment in which the driver
    works. *)
Definition fresh_world : World := startup [] (mkState 5%N 7%N).

Definition widget : Doc := mkDoc 1%N (Some (JString "widget")).
Definition unnamed : Doc := mkDoc 2%N None.
Definition stocked_world : World := startup [widget; unnamed] (mkState 5%N 7%N).

Definition calm (clock : Z) : Env := mkEnv clock None.

(** Identifiers as a client writes them: of no item, of [widget], and
    one that is no ObjectId. *)
Definition id_beef : string := "00000000000000000000Beef".
Definition id_widget : string := "000000000000000000000001".
Definition id_malformed : string := "not-an-object-id".

End Samples.

Import Bson Mongoose Server Collection Samples.

(** * Properties *)

(** ** Identifiers: the hexadecimal form read back *)

Section Hex.
Local Open Scope N_scope.

Lemma hex_value_digit (d : N) : d < 16 -> hex_value (hex_digit d) = Some d.
Proof.
  intro Hd.
  assert (Hcases : d = 0 \/ d = 1 \/ d = 2 \/ d = 3 \/ d = 4 \/ d = 5 \/ d = 6 \/ d = 7
          \/ d = 8 \/ d = 9 \/ d = 10 \/ d = 11 \/ d = 12 \/ d = 13 \/ d = 14 \/ d = 15)
    by lia.
  repeat (destruct Hcases as [-> | Hcases]; [reflexivity | ]).
  subst d; reflexivity.
Qed.

Lemma parse_hex_app (s t : string) (acc : N) :
  parse_hex (s ++ t) acc =
  match parse_hex s acc with Some a => parse_hex t a | None => None end.
Proof.
  revert acc; induction s as [| c s IH]; intro acc; simpl.
  - reflexivity.
  - destruct (hex_value c); [apply IH | reflexivity].
Qed.

Lemma length_snoc (s : string) (c : ascii) :
  String.length (s ++ String c EmptyString) = S (String.length s).
Proof. induction s as [| a s IH]; simpl; [reflexivity | now rewrite IH]. Qed.

Lemma length_to_hex (n : nat) (v : N) : String.length (to_hex n v) = n.
Proof.
  revert v; induction n as [| n IH]; intro v; simpl.
  - reflexivity.
  - now rewrite length_snoc, IH.
Qed.

Lemma parse_to_hex (n : nat) :
  forall v acc, v < 16 ^ N.of_nat n ->
  parse_hex (to_hex n v) acc = Some (acc * 16 ^ N.of_nat n + v).
Proof.
  induction n as [| n IH]; intros v acc Hv.
  - simpl in *. f_equal. lia.
  - rewrite Nat2N.inj_succ, N.pow_succ_r' in *.
    cbn [to_hex]. rewrite parse_hex_app, IH.
    + cbn [parse_hex]. rewrite hex_value_digit by (apply N.mod_lt; lia).
      f_equal. pose proof (N.div_mod v 16). lia.
    + apply N.Div0.div_lt_upper_bound; lia.
Qed.

Lemma fromString_toHexString (id : ObjectId) :
  id < 2 ^ 96 -> fromString (toHexString id) = Some id.
Proof.
  intro Hid. unfold fromString, toHexString.
  rewrite length_to_hex, Nat.eqb_refl, parse_to_hex.
  - now rewrite N.mul_0_l, N.add_0_l.
  - change (16 ^ N.of_nat 24) with (2 ^ 96). exact Hid.
Qed.

Lemma generate_lt (time : Z) (unique inc : N) : generate time unique inc < 2 ^ 96.
Proof.
  unfold generate.
  assert (Ht : Z.to_N (time mod 2 ^ 32) < 2 ^ 32).
  { change (2 ^ 32) with (Z.to_N (2 ^ 32)%Z).
    apply Z2N.inj_lt; try apply Z.mod_pos_bound; lia. }
  assert (Hu : unique mod 2 ^ 40 < 2 ^ 40) by (apply N.mod_lt; discriminate).
  assert (Hi : inc mod 2 ^ 24 < 2 ^ 24) by (apply N.mod_lt; discriminate).
  change (2 ^ 96) with (2 ^ 32 * 2 ^ 64).
  change (2 ^ 64) with (2 ^ 40 * 2 ^ 24) at 1 2.
  nia.
Qed.

End Hex.

(** Every identifier [new ObjectId()] produces is read back from the text
    a client receives for it. *)
Lemma castObjectId_new (clock : Z) (st : Bson.State) :
  castObjectId (toHexString (fst (newObjectId clock st)))
  = Ok (fst (newObjectId clock st)).
Proof.
  unfold castObjectId, newObjectId. cbn [fst].
  rewrite fromString_toHexString by apply generate_lt. reflexivity.
Qed.

(** ** The collection: lookups, updates and removals by identifier *)

Lemma update_first_absent (oid : ObjectId) (f : Doc -> Doc) (ds : list Doc) :
  List.find (has_id oid) ds = None -> update_first oid f ds = ds.
Proof.
  induction ds as [| d ds IH]; simpl; intro Hfind.
  - reflexivity.
  - destruct (has_id oid d); [discriminate | now rewrite IH].
Qed.

Lemma remove_first_absent (oid : ObjectId) (ds : list Doc) :
  List.find (has_id oid) ds = None -> remove_first oid ds = ds.
Proof.
  induction ds as [| d ds IH]; simpl; intro Hfind.
  - reflexivity.
  - destruct (has_id oid d); [discriminate | now rewrite IH].
Qed.

Lemma find_absent_iff (oid : ObjectId) (ds : list Doc) :
  existsb (has_id oid) ds = false <-> List.find (has_id oid) ds = None.
Proof.
  induction ds as [| d ds IH]; simpl.
  - tauto.
  - destruct (has_id oid d); simpl; [split; discriminate | exact IH].
Qed.

Lemma has_id_self (d : Doc) : has_id (_id d) d = true.
Proof. apply N.eqb_refl. Qed.

Lemma find_appended (d : Doc) (ds : list Doc) :
  existsb (has_id (_id d)) ds = false ->
  List.find (has_id (_id d)) (ds ++ [d]) = Some d.
Proof.
  induction ds as [| a ds IH]; simpl.
  - now rewrite has_id_self.
  - destruct (has_id (_id d) a); simpl; [discriminate | exact IH].
Qed.

Lemma remove_first_appended (d : Doc) (ds : list Doc) :
  existsb (has_id (_id d)) ds = false ->
  remove_first (_id d) (ds ++ [d]) = ds.
Proof.
  induction ds as [| a ds IH]; simpl.
  - now rewrite has_id_self.
  - destruct (has_id (_id d) a); simpl; [discriminate | ].
    intro H. now rewrite IH.
Qed.

(** ** What each route does when its operation succeeds *)

Section RouteEquations.
Variable message : Error -> string.

Lemma post_items_created (env : Env) (payload : Json) (nm : option Json) (w : World)
    (d : Doc) :
  body_name payload = Ok nm ->
  new_Item (fst (newObjectId (now env) (bson w))) nm = mkDocument d None ->
  driver_fault env = None ->
  existsb (has_id (_id d)) (docs (db w)) = false ->
  post_items message env payload w
  = (mkResponse 201 (MessageItem "Item created" d),
     mkWorld (mkDb (docs (db w) ++ [d]) (Save d :: calls (db w)))
             (operation_id (now env) true (snd (newObjectId (now env) (bson w))))
             (registry w)).
Proof.
  intros Hbody Hnew Hfault Hfresh. unfold post_items. rewrite Hbody.
  destruct (newObjectId (now env) (bson w)) as [id generator]; cbn [fst snd] in *.
  rewrite Hnew. unfold save, save_reaches. cbn [invalid fields].
  now rewrite Hfault, Hfresh.
Qed.

Lemma post_items_rejected (env : Env) (payload : Json) (nm : option Json) (w : World)
    (d : Doc) (e : Error) :
  body_name payload = Ok nm ->
  new_Item (fst (newObjectId (now env) (bson w))) nm = mkDocument d (Some e) ->
  post_items message env payload w
  = (mkResponse 500 (ErrorBody (message (ValidationError "name" e))),
     mkWorld (mkDb (docs (db w)) (Save d :: calls (db w)))
             (snd (newObjectId (now env) (bson w))) (registry w)).
Proof.
  intros Hbody Hnew. unfold post_items. rewrite Hbody.
  destruct (newObjectId (now env) (bson w)) as [id generator]; cbn [fst snd] in *.
  rewrite Hnew. reflexivity.
Qed.

Lemma get_items_listed (env : Env) (w : World) :
  driver_fault env = None ->
  get_items message env w
  = (mkResponse 200 (Items (docs (db w))),
     mkWorld (mkDb (docs (db w)) (Find :: calls (db w)))
             (operation_id (now env) true (bson w)) (registry w)).
Proof. intro Hfault. unfold get_items, find. now rewrite Hfault. Qed.

Lemma put_item_updated (env : Env) (id : string) (oid : ObjectId) (payload v s : Json)
    (d : Doc) (w : World) :
  body_name payload = Ok (Some v) ->
  castObjectId id = Ok oid ->
  castString "name" v = Ok s ->
  driver_fault env = None ->
  List.find (has_id oid) (docs (db w)) = Some d ->
  put_item message env id payload w
  = (mkResponse 200 (MessageItem "Item updated" (set_name s d)),
     mkWorld (mkDb (update_first oid (set_name s) (docs (db w)))
                   (FindByIdAndUpdate id (Some v) :: calls (db w)))
             (operation_id (now env) true (bson w)) (registry w)).
Proof.
  intros Hbody Hid Hcast Hfault Hfind.
  unfold put_item, findByIdAndUpdate, update_reaches.
  now rewrite Hbody, Hid, Hcast, Hfault, Hfind.
Qed.

Lemma put_item_found (env : Env) (id : string) (oid : ObjectId) (payload : Json)
    (d : Doc) (w : World) :
  body_name payload = Ok None ->
  castObjectId id = Ok oid ->
  driver_fault env = None ->
  List.find (has_id oid) (docs (db w)) = Some d ->
  put_item message env id payload w
  = (mkResponse 200 (MessageItem "Item updated" d),
     mkWorld (mkDb (docs (db w)) (FindByIdAndUpdate id None :: calls (db w)))
             (operation_id (now env) true (bson w)) (registry w)).
Proof.
  intros Hbody Hid Hfault Hfind.
  unfold put_item, findByIdAndUpdate, update_reaches.
  now rewrite Hbody, Hid, Hfault, Hfind.
Qed.

Lemma delete_item_deleted (env : Env) (id : string) (oid : ObjectId) (d : Doc)
    (w : World) :
  castObjectId id = Ok oid ->
  driver_fault env = None ->
  List.find (has_id oid) (docs (db w)) = Some d ->
  delete_item message env id w
  = (mkResponse 200 (Message "Item deleted"),
     mkWorld (mkDb (remove_first oid (docs (db w)))
                   (FindByIdAndDelete id :: calls (db w)))
             (operation_id (now env) true (bson w)) (registry w)).
Proof.
  intros Hid Hfault Hfind. unfold delete_item, findByIdAndDelete, delete_reaches.
  now rewrite Hid, Hfault, Hfind.
Qed.

End RouteEquations.

(** ** Routes addressed to an identifier that names no item *)

(** C3: DELETE /items/:id with a well-formed identifier that no item of
    the collection carries is answered 404 with a message body, and the
    collection afterwards is the collection before (the driver carrying
    the command to the database). *)
Theorem delete_missing_is_404 (message : Error -> string) (env : Env) (id : string)
    (oid : ObjectId) (w : World) :
  castObjectId id = Ok oid ->
  List.find (has_id oid) (docs (db w)) = None ->
  driver_fault env = None ->
  fst (delete_item message env id w) = mkResponse 404 (Message "Item not found")
  /\ docs (db (snd (delete_item message env id w))) = docs (db w).
Proof.
  intros Hid Hfind Hfault.
  unfold delete_item, findByIdAndDelete.
  rewrite Hid, Hfault, Hfind. cbn.
  split; [reflexivity | now apply remove_first_absent].
Qed.

Lemma delete_missing_is_404_witness :
  castObjectId id_beef = Ok 48879%N
  /\ fst (delete_item sample_message (calm 0) id_beef stocked_world)
     = mkResponse 404 (Message "Item not found")
  /\ docs (db (snd (delete_item sample_message (calm 0) id_beef
                      stocked_world))) = [widget; unnamed].
Proof.
  split; [reflexivity | ].
  apply (delete_missing_is_404 sample_message (calm 0) id_beef
           48879%N stocked_world); reflexivity.
Defined.

(** C2, as amended: PUT /items/:id with a well-formed identifier that no
    item carries, and with any body the handler receives (an object or
    an array), leaves the collection as it was; it is answered 404 with a
    message body when the body's name is absent or is accepted by the
    schema's String caster and the driver carries the command to the
    database, and 500 with the cast error's text when the name cannot be
    cast. *)
Theorem put_missing_is_404 (message : Error -> string) (env : Env) (id : string)
    (oid : ObjectId) (payload : Json) (w : World) :
  castObjectId id = Ok oid ->
  List.find (has_id oid) (docs (db w)) = None ->
  strict_json payload = true ->
  exists nm,
    body_name payload = Ok nm
    /\ docs (db (snd (put_item message env id payload w))) = docs (db w)
    /\ (driver_fault env = None ->
        (forall v, nm = Some v -> exists s, castString "name" v = Ok s) ->
        fst (put_item message env id payload w)
        = mkResponse 404 (Message "Item not found"))
    /\ (forall v e, nm = Some v -> castString "name" v = Throw e ->
        fst (put_item message env id payload w)
        = mkResponse 500 (ErrorBody (message e))).
Proof.
  intros Hid Hfind Hstrict.
  assert (Hname : exists nm, body_name payload = Ok nm).
  { unfold body_name, prop. destruct payload; try discriminate Hstrict;
      eexists; reflexivity. }
  destruct Hname as [nm Hbody]. exists nm. split; [exact Hbody | ].
  unfold put_item, findByIdAndUpdate. rewrite Hbody, Hid.
  destruct nm as [v |].
  - destruct (castString "name" v) as [s | e] eqn:Hcast.
    + destruct (driver_fault env) as [fault |]; cbn.
      * repeat split; [discriminate | ].
        intros v' e' Hv Hthrow. injection Hv as <-. congruence.
      * rewrite Hfind; cbn. rewrite update_first_absent by assumption.
        repeat split.
        intros v' e' Hv Hthrow. injection Hv as <-. congruence.
    + cbn. repeat split.
      * intros _ Hcastable. destruct (Hcastable v eq_refl) as [s Hs]. congruence.
      * intros v' e' Hv Hthrow. injection Hv as <-.
        unfold internal_error. congruence.
  - destruct (driver_fault env) as [fault |]; cbn.
    + repeat split; discriminate.
    + rewrite Hfind. repeat split. discriminate.
Qed.

Lemma put_missing_is_404_witness :
  strict_json (JObject [("name", JNumber "7")]) = true
  /\ docs (db (snd (put_item sample_message (calm 0) id_beef
                      (JObject [("name", JNumber "7")]) stocked_world)))
     = [widget; unnamed]
  /\ fst (put_item sample_message (calm 0) id_beef
            (JObject [("name", JNumber "7")]) stocked_world)
     = mkResponse 404 (Message "Item not found").
Proof.
  split; [reflexivity | ].
  destruct (put_missing_is_404 sample_message (calm 0) id_beef 48879%N
              (JObject [("name", JNumber "7")]) stocked_world
              eq_refl eq_refl eq_refl) as (nm & Hname & Hdocs & Hfound & _).
  split; [exact Hdocs | ].
  apply Hfound; [reflexivity | ].
  intros v Hv. rewrite Hv in Hname. injection Hname as <-.
  exists (JString "7"). reflexivity.
Defined.

(** C2, as stated, fails: on a collection that holds no item with the
    identifier, a PUT whose body carries a name the schema cannot cast
    (here a plain object) is answered 500, not 404. *)
Lemma put_missing_uncastable_is_500 :
  castObjectId id_beef = Ok 48879%N
  /\ List.find (has_id 48879%N) (docs (db stocked_world)) = None
  /\ status (fst (put_item sample_message (calm 0) id_beef
                    (JObject [("name", JObject [("first", JString "a")])])
                    stocked_world)) = 500
  /\ status (fst (put_item sample_message (calm 0) id_beef
                    (JObject [("name", JObject [("first", JString "a")])])
                    stocked_world)) <> 404.
Proof. repeat split; cbn; discriminate. Qed.

(** ** The create, update, list, delete scenario *)

(** C1: on an empty collection, POST /items {name: "a"} is answered 201
    with the item {X, "a"}, X being the identifier generated for it; PUT
    /items/X {name: "b"} is answered 200 with {X, "b"}; GET /items then
    lists exactly that item; DELETE /items/X is answered 200; and GET
    /items lists nothing (the driver carrying each command to the
    database). *)
Theorem scenario_create_update_list_delete (message : Error -> string) (w : World)
    (e1 e2 e3 e4 e5 : Env) :
  docs (db w) = [] ->
  driver_fault e1 = None -> driver_fault e2 = None -> driver_fault e3 = None ->
  driver_fault e4 = None -> driver_fault e5 = None ->
  let X := fst (newObjectId (now e1) (bson w)) in
  fst (serve message
         [ (e1, PostItems (JObject [("name", JString "a")]));
           (e2, PutItem (toHexString X) (JObject [("name", JString "b")]));
           (e3, GetItems);
           (e4, DeleteItem (toHexString X));
           (e5, GetItems) ] w)
  = [ mkResponse 201 (MessageItem "Item created" (mkDoc X (Some (JString "a"))));
      mkResponse 200 (MessageItem "Item updated" (mkDoc X (Some (JString "b"))));
      mkResponse 200 (Items [mkDoc X (Some (JString "b"))]);
      mkResponse 200 (Message "Item deleted");
      mkResponse 200 (Items []) ].
Proof.
  intros Hempty H1 H2 H3 H4 H5 X.
  pose proof (castObjectId_new (now e1) (bson w)) as Hcast. fold X in Hcast.
  cbn [serve handle].
  rewrite (post_items_created message e1 _ (Some (JString "a")) w
             (mkDoc X (Some (JString "a"))))
    by (try reflexivity; try assumption; rewrite Hempty; reflexivity).
  clearbody X. rewrite Hempty. cbn [app].
  assert (Hself : forall d, _id d = X -> has_id X d = true)
    by (intros d <-; apply has_id_self).
  rewrite (put_item_updated message e2 _ X _ (JString "b") (JString "b")
             (mkDoc X (Some (JString "a"))))
    by (try reflexivity; try assumption;
        cbn [db docs List.find]; now rewrite Hself).
  cbn [db docs bson registry calls update_first set_name _id].
  rewrite Hself by reflexivity.
  rewrite get_items_listed by assumption.
  cbn [db docs bson registry calls].
  rewrite (delete_item_deleted message e4 _ X (mkDoc X (Some (JString "b"))))
    by (try assumption; cbn [db docs List.find]; now rewrite Hself).
  cbn [db docs bson registry calls remove_first].
  rewrite Hself by reflexivity.
  rewrite get_items_listed by assumption.
  reflexivity.
Qed.

Lemma scenario_create_update_list_delete_witness :
  fst (serve sample_message
         [ (calm 1700000000123, PostItems (JObject [("name", JString "a")]));
           (calm 1700000000456,
            PutItem "6553f1000000000007000006" (JObject [("name", JString "b")]));
           (calm 1700000000789, GetItems);
           (calm 1700000001000, DeleteItem "6553f1000000000007000006");
           (calm 1700000001001, GetItems) ] fresh_world)
  = [ mkResponse 201 (MessageItem "Item created"
                        (mkDoc 31359464925306237747317440518%N (Some (JString "a"))));
      mkResponse 200 (MessageItem "Item updated"
                        (mkDoc 31359464925306237747317440518%N (Some (JString "b"))));
      mkResponse 200 (Items [mkDoc 31359464925306237747317440518%N
                               (Some (JString "b"))]);
      mkResponse 200 (Message "Item deleted");
      mkResponse 200 (Items []) ].
Proof.
  exact (scenario_create_update_list_delete sample_message fresh_world
           (calm 1700000000123) (calm 1700000000456) (calm 1700000000789)
           (calm 1700000001000) (calm 1700000001001)
           eq_refl eq_refl eq_refl eq_refl eq_refl eq_refl).
Defined.

(** ** Creating, then deleting by the returned identifier *)

Lemma new_Item_id (id : ObjectId) (nm : option Json) : _id (fields (new_Item id nm)) = id.
Proof.
  unfold new_Item. destruct nm as [v |]; [ | reflexivity].
  destruct (castString "name" v); reflexivity.
Qed.

(** A creation answered 201 appended one document, carrying the
    identifier just generated, which no document carried before. *)
Lemma post_items_201 (message : Error -> string) (env : Env) (payload : Json) (w : World) :
  status (fst (post_items message env payload w)) = 201 ->
  exists d,
    _id d = fst (newObjectId (now env) (bson w))
    /\ existsb (has_id (_id d)) (docs (db w)) = false
    /\ body (fst (post_items message env payload w)) = MessageItem "Item created" d
    /\ docs (db (snd (post_items message env payload w))) = (docs (db w) ++ [d])%list
    /\ bson (snd (post_items message env payload w))
       = operation_id (now env) true (snd (newObjectId (now env) (bson w))).
Proof.
  unfold post_items.
  destruct (body_name payload) as [nm | e]; [ | discriminate].
  destruct (newObjectId (now env) (bson w)) as [id generator]; cbn [fst snd].
  pose proof (new_Item_id id nm) as Hid.
  unfold save, save_reaches. destruct (invalid (new_Item id nm)); [discriminate | ].
  destruct (driver_fault env); [discriminate | ].
  destruct (existsb (has_id (_id (fields (new_Item id nm)))) (docs (db w))) eqn:Hfresh;
    [discriminate | ].
  intros _. exists (fields (new_Item id nm)). cbn. repeat split; assumption.
Qed.

(** C5: when POST /items has created an item (201), DELETE /items/:id
    with the identifier of the returned item, as the client reads it, is
    answered 200 and leaves the collection as it was before the creation;
    from the empty collection it is empty again (the driver carrying the
    deletion to the database). *)
Theorem create_then_delete_restores (message : Error -> string) (env1 env2 : Env)
    (payload : Json) (w : World) :
  status (fst (post_items message env1 payload w)) = 201 ->
  driver_fault env2 = None ->
  exists item,
    body (fst (post_items message env1 payload w)) = MessageItem "Item created" item
    /\ fst (delete_item message env2 (toHexString (_id item))
              (snd (post_items message env1 payload w)))
       = mkResponse 200 (Message "Item deleted")
    /\ docs (db (snd (delete_item message env2 (toHexString (_id item))
                        (snd (post_items message env1 payload w)))))
       = docs (db w)
    /\ (docs (db w) = [] ->
        docs (db (snd (delete_item message env2 (toHexString (_id item))
                         (snd (post_items message env1 payload w))))) = []).
Proof.
  intros Hcreated Hfault.
  destruct (post_items_201 message env1 payload w Hcreated)
    as (d & Hid & Hfresh & Hbody & Hdocs & _).
  exists d. split; [exact Hbody | ].
  assert (Hcast : castObjectId (toHexString (_id d)) = Ok (_id d))
    by (rewrite Hid; apply castObjectId_new).
  rewrite (delete_item_deleted message env2 _ (_id d) d)
    by (try assumption; rewrite Hdocs; now apply find_appended).
  cbn [fst snd db docs]. rewrite Hdocs, remove_first_appended by assumption.
  repeat split. intro Hempty; exact Hempty.
Qed.

Lemma create_then_delete_restores_witness :
  status (fst (post_items sample_message (calm 1700000000123)
                 (JObject [("name", JString "gadget")]) stocked_world)) = 201
  /\ exists item,
       body (fst (post_items sample_message (calm 1700000000123)
                           (JObject [("name", JString "gadget")]) stocked_world))
       = MessageItem "Item created" item
       /\ fst (delete_item sample_message (calm 1700000000456) (toHexString (_id item))
                 (snd (post_items sample_message (calm 1700000000123)
                         (JObject [("name", JString "gadget")]) stocked_world)))
          = mkResponse 200 (Message "Item deleted")
       /\ docs (db (snd (delete_item sample_message (calm 1700000000456)
                           (toHexString (_id item))
                           (snd (post_items sample_message (calm 1700000000123)
                                   (JObject [("name", JString "gadget")])
                                   stocked_world)))))
          = [widget; unnamed].
Proof.
  split; [reflexivity | ].
  destruct (create_then_delete_restores sample_message (calm 1700000000123)
              (calm 1700000000456) (JObject [("name", JString "gadget")]) stocked_world
              eq_refl eq_refl) as (item & Hbody & Hdeleted & Hdocs & _).
  exists item. repeat split; assumption.
Defined.

(** ** Updating without a name *)

(** C9: PUT /items/:id for an item of the collection, with a body that
    has no name, is answered 200 with the item as stored, and the
    collection (that item's name and every other item) is as it was (the
    driver carrying the command to the database). *)
Theorem put_without_name_keeps_item (message : Error -> string) (env : Env)
    (id : string) (oid : ObjectId) (payload : Json) (item : Doc) (w : World) :
  castObjectId id = Ok oid ->
  List.find (has_id oid) (docs (db w)) = Some item ->
  body_name payload = Ok None ->
  driver_fault env = None ->
  fst (put_item message env id payload w) = mkResponse 200 (MessageItem "Item updated" item)
  /\ docs (db (snd (put_item message env id payload w))) = docs (db w).
Proof.
  intros Hid Hfind Hbody Hfault.
  rewrite (put_item_found message env id oid payload item w) by assumption.
  split; reflexivity.
Qed.

Lemma put_without_name_keeps_item_witness :
  body_name (JObject [("colour", JString "red")]) = Ok None
  /\ fst (put_item sample_message (calm 0) id_widget
            (JObject [("colour", JString "red")]) stocked_world)
     = mkResponse 200 (MessageItem "Item updated" widget)
  /\ docs (db (snd (put_item sample_message (calm 0) id_widget
                      (JObject [("colour", JString "red")]) stocked_world)))
     = [widget; unnamed].
Proof.
  split; [reflexivity | ].
  exact (put_without_name_keeps_item sample_message (calm 0) id_widget 1%N
           (JObject [("colour", JString "red")]) widget stocked_world
           eq_refl eq_refl eq_refl eq_refl).
Defined.

(** ** Errors of the storage layer *)

Lemma save_records (fault : option Error) (item : Document) (d : Db) :
  calls (snd (save fault item d)) = Save (fields item) :: calls d.
Proof.
  unfold save. destruct (invalid item); [reflexivity | ].
  destruct fault; [reflexivity | ].
  destruct (existsb _ _); reflexivity.
Qed.

Lemma find_records (fault : option Error) (d : Db) :
  calls (snd (find fault d)) = Find :: calls d.
Proof. unfold find. destruct fault; reflexivity. Qed.

Lemma findByIdAndUpdate_records (fault : option Error) (id : string)
    (nm : option Json) (d : Db) :
  calls (snd (findByIdAndUpdate fault id nm d)) = FindByIdAndUpdate id nm :: calls d.
Proof.
  unfold findByIdAndUpdate. destruct (castObjectId id); [ | reflexivity].
  destruct nm as [v |].
  - destruct (castString "name" v); [ | reflexivity]. destruct fault; reflexivity.
  - destruct fault; reflexivity.
Qed.

Lemma findByIdAndDelete_records (fault : option Error) (id : string) (d : Db) :
  calls (snd (findByIdAndDelete fault id d)) = FindByIdAndDelete id :: calls d.
Proof.
  unfold findByIdAndDelete. destruct (castObjectId id); [ | reflexivity].
  destruct fault; reflexivity.
Qed.

(** No route invokes more than one model operation, whatever the
    outcome. *)
Lemma at_most_one_operation (message : Error -> string) (env : Env) (req : Request)
    (w : World) :
  calls (db (snd (handle message env req w))) = calls (db w)
  \/ exists c, calls (db (snd (handle message env req w))) = c :: calls (db w).
Proof.
  destruct req as [| payload | | id payload | id |]; cbn [handle].
  - now left.
  - unfold post_items. destruct (body_name payload) as [nm | e]; [ | now left].
    destruct (newObjectId (now env) (bson w)) as [oid generator].
    pose proof (save_records (driver_fault env) (new_Item oid nm) (db w)) as Hcalls.
    destruct (save _ _ _) as [[saved | e] db']; right; eexists; exact Hcalls.
  - unfold get_items.
    pose proof (find_records (driver_fault env) (db w)) as Hcalls.
    destruct (find _ _) as [[items | e] db']; right; eexists; exact Hcalls.
  - unfold put_item. destruct (body_name payload) as [nm | e]; [ | now left].
    pose proof (findByIdAndUpdate_records (driver_fault env) id nm (db w)) as Hcalls.
    destruct (findByIdAndUpdate _ _ _ _) as [[[item |] | e] db'];
      right; eexists; exact Hcalls.
  - unfold delete_item.
    pose proof (findByIdAndDelete_records (driver_fault env) id (db w)) as Hcalls.
    destruct (findByIdAndDelete _ _ _) as [[[item |] | e] db'];
      right; eexists; exact Hcalls.
  - now left.
Qed.

(** C4: on each of the four items routes, an error raised by the
    route's model operation (a fault of the driver, a malformed
    identifier, a failed cast or validation, a refused insert) is
    answered 500 with the error's message as the [error] of the body,
    and that operation is the only one the route has invoked: the trace
    grew by exactly one call. *)
Theorem storage_error_is_500 (message : Error -> string) (env : Env) (req : Request)
    (w : World) (e : Error) :
  storage_error env req w = Some e ->
  items_route req = true
  /\ fst (handle message env req w) = mkResponse 500 (ErrorBody (message e))
  /\ exists c, calls (db (snd (handle message env req w))) = c :: calls (db w).
Proof.
  destruct req as [| payload | | id payload | id |]; cbn [storage_error handle items_route];
    try discriminate.
  - (* POST /items *)
    unfold post_items. destruct (body_name payload) as [nm | e0]; [ | discriminate].
    destruct (newObjectId (now env) (bson w)) as [oid generator]; cbn [fst].
    pose proof (save_records (driver_fault env) (new_Item oid nm) (db w)) as Hcalls.
    unfold raised.
    destruct (save (driver_fault env) (new_Item oid nm) (db w)) as [[saved | e0] db'];
      cbn [fst snd] in *; [discriminate | ].
    intros [= ->]. repeat split. eexists; exact Hcalls.
  - (* GET /items *)
    unfold get_items.
    pose proof (find_records (driver_fault env) (db w)) as Hcalls.
    unfold raised.
    destruct (find (driver_fault env) (db w)) as [[items | e0] db'];
      cbn [fst snd] in *; [discriminate | ].
    intros [= ->]. repeat split. eexists; exact Hcalls.
  - (* PUT /items/:id *)
    unfold put_item. destruct (body_name payload) as [nm | e0]; [ | discriminate].
    pose proof (findByIdAndUpdate_records (driver_fault env) id nm (db w)) as Hcalls.
    unfold raised.
    destruct (findByIdAndUpdate (driver_fault env) id nm (db w)) as [[item | e0] db'];
      cbn [fst snd] in *; [discriminate | ].
    intros [= ->]. repeat split. eexists; exact Hcalls.
  - (* DELETE /items/:id *)
    unfold delete_item.
    pose proof (findByIdAndDelete_records (driver_fault env) id (db w)) as Hcalls.
    unfold raised.
    destruct (findByIdAndDelete (driver_fault env) id (db w)) as [[item | e0] db'];
      cbn [fst snd] in *; [discriminate | ].
    intros [= ->]. repeat split. eexists; exact Hcalls.
Qed.

(** A malformed identifier and a lost connection, each answered 500 with
    the message of the error and one recorded call. *)
Lemma storage_error_is_500_witness :
  (storage_error (calm 0) (DeleteItem id_malformed) stocked_world
   = Some (CastError "ObjectId" (JString id_malformed) "_id")
   /\ fst (handle sample_message (calm 0) (DeleteItem id_malformed) stocked_world)
      = mkResponse 500 (ErrorBody "CastError: ObjectId at _id")
   /\ exists c,
        calls (db (snd (handle sample_message (calm 0) (DeleteItem id_malformed)
                          stocked_world))) = [c])
  /\ (storage_error (mkEnv 0 (Some (DriverError "connection closed")))
        (PostItems (JObject [("name", JString "a")])) stocked_world
      = Some (DriverError "connection closed")
      /\ fst (handle sample_message (mkEnv 0 (Some (DriverError "connection closed")))
                (PostItems (JObject [("name", JString "a")])) stocked_world)
         = mkResponse 500 (ErrorBody "connection closed")).
Proof.
  split.
  - split; [reflexivity | ].
    exact (proj2 (storage_error_is_500 sample_message (calm 0) (DeleteItem id_malformed)
                    stocked_world _ eq_refl)).
  - split; [reflexivity | ].
    exact (proj1 (proj2 (storage_error_is_500 sample_message
                           (mkEnv 0 (Some (DriverError "connection closed")))
                           (PostItems (JObject [("name", JString "a")])) stocked_world
                           _ eq_refl))).
Defined.

Lemma malformed_id_raises (env : Env) (id : string) (payload : Json) (nm : option Json)
    (w : World) :
  fromString id = None ->
  body_name payload = Ok nm ->
  storage_error env (DeleteItem id) w = Some (CastError "ObjectId" (JString id) "_id")
  /\ storage_error env (PutItem id payload) w
     = Some (CastError "ObjectId" (JString id) "_id").
Proof.
  intros Hid Hbody. cbn [storage_error]. rewrite Hbody.
  unfold findByIdAndDelete, findByIdAndUpdate, castObjectId. rewrite Hid.
  split; reflexivity.
Qed.

(** ** The latency probe *)

(** C6, as amended: GET /fast is always answered 200 with the message
    and, as timestamp, the clock reading of the call in milliseconds, and
    changes nothing; so of two successive calls the later timestamp is
    not smaller whenever the clock has not been set back between them,
    and the two are equal when the clock reads the same. *)
Theorem fast_timestamp_is_clock (message : Error -> string) (e1 e2 : Env) (w : World) :
  (now e1 <= now e2)%Z ->
  serve message [(e1, GetFast); (e2, GetFast)] w
  = ([ mkResponse 200 (Fast "Fast API Response" (now e1));
       mkResponse 200 (Fast "Fast API Response" (now e2)) ], w)
  /\ exists t1 t2,
       map timestamp_of (fst (serve message [(e1, GetFast); (e2, GetFast)] w))
       = [Some t1; Some t2]
       /\ (t1 <= t2)%Z
       /\ (now e1 = now e2 -> t1 = t2).
Proof.
  intro Hclock. split; [reflexivity | ].
  exists (now e1), (now e2). cbn. repeat split; [assumption | intro H; exact H].
Qed.

Lemma fast_timestamp_is_clock_witness :
  (1700000000123 <= 1700000000124)%Z
  /\ serve sample_message [(calm 1700000000123, GetFast); (calm 1700000000124, GetFast)]
       fresh_world
     = ([ mkResponse 200 (Fast "Fast API Response" 1700000000123);
          mkResponse 200 (Fast "Fast API Response" 1700000000124) ], fresh_world).
Proof.
  assert (Hclock : (1700000000123 <= 1700000000124)%Z) by (intro H; discriminate H).
  split; [exact Hclock | ].
  exact (proj1 (fast_timestamp_is_clock sample_message (calm 1700000000123)
                  (calm 1700000000124) fresh_world Hclock)).
Defined.

(** C6, as stated, fails: two successive calls served within one
    millisecond carry the same timestamp, so the later one is not
    strictly greater. *)
Lemma fast_same_millisecond :
  map timestamp_of
    (fst (serve sample_message
            [(calm 1700000000123, GetFast); (calm 1700000000123, GetFast)] fresh_world))
  = [Some 1700000000123%Z; Some 1700000000123%Z]
  /\ ~ (1700000000123 < 1700000000123)%Z.
Proof. split; [reflexivity | lia]. Qed.

(** ** What POST /items stores *)

(** The name the schema's String path holds for a value it accepts. *)
Lemma castString_accepts (v s : Json) :
  castString "name" v = Ok s ->
  match v with
  | JNull => s = JNull
  | JString text => s = JString text
  | JNumber text => s = JString text
  | JBool b => s = JString (if b then "true" else "false")
  | JObject fs => exists c rest, lookup "_id" fs = Some (JString (String c rest))
                                 /\ s = JString (String c rest)
  | JArray _ => False
  end.
Proof.
  destruct v as [| b | text | text | elems | fs]; cbn; try (intros [= <-]; reflexivity).
  destruct (lookup "_id" fs) as [[| | | [| c rest] | |] |];
    try (intro H; discriminate H).
  intros [= <-]. exists c, rest. split; reflexivity.
Qed.

(** C7, as amended: POST /items passes the body's name through the
    schema's String caster and stores the result under an identifier the
    collection does not hold yet.  An absent name stores a document
    without name; null and a string are stored as they are; a number or
    a boolean is stored as its text; an array, or an object without a
    non-empty string [_id], is answered 500 and nothing is stored (the
    driver carrying the insert to the database). *)
Theorem post_stores_cast_name (message : Error -> string) (env : Env) (payload : Json)
    (nm : option Json) (w : World) :
  body_name payload = Ok nm ->
  driver_fault env = None ->
  existsb (has_id (fst (newObjectId (now env) (bson w)))) (docs (db w)) = false ->
  let id := fst (newObjectId (now env) (bson w)) in
  let stored := docs (db (snd (post_items message env payload w))) in
  let answer := status (fst (post_items message env payload w)) in
  (nm = None -> answer = 201 /\ stored = (docs (db w) ++ [mkDoc id None])%list)
  /\ (nm = Some JNull ->
      answer = 201 /\ stored = (docs (db w) ++ [mkDoc id (Some JNull)])%list)
  /\ (forall text, nm = Some (JString text) ->
      answer = 201 /\ stored = (docs (db w) ++ [mkDoc id (Some (JString text))])%list)
  /\ (forall text, nm = Some (JNumber text) ->
      answer = 201 /\ stored = (docs (db w) ++ [mkDoc id (Some (JString text))])%list)
  /\ (forall b, nm = Some (JBool b) ->
      answer = 201
      /\ stored = (docs (db w)
                   ++ [mkDoc id (Some (JString (if b then "true" else "false")))])%list)
  /\ (forall elems, nm = Some (JArray elems) -> answer = 500 /\ stored = docs (db w))
  /\ (forall fs, nm = Some (JObject fs) ->
      (forall c rest, lookup "_id" fs <> Some (JString (String c rest))) ->
      answer = 500 /\ stored = docs (db w))
  /\ (forall fs c rest, nm = Some (JObject fs) ->
      lookup "_id" fs = Some (JString (String c rest)) ->
      answer = 201
      /\ stored = (docs (db w) ++ [mkDoc id (Some (JString (String c rest)))])%list).
Proof.
  intros Hbody Hfault Hfresh id stored answer. subst stored answer.
  assert (Hcreated : forall d,
             new_Item id nm = mkDocument (mkDoc id d) None ->
             status (fst (post_items message env payload w)) = 201
             /\ docs (db (snd (post_items message env payload w)))
                = (docs (db w) ++ [mkDoc id d])%list).
  { intros d Hnew.
    rewrite (post_items_created message env payload nm w (mkDoc id d))
      by assumption.
    split; reflexivity. }
  assert (Hrejected : forall e,
             new_Item id nm = mkDocument (mkDoc id None) (Some e) ->
             status (fst (post_items message env payload w)) = 500
             /\ docs (db (snd (post_items message env payload w))) = docs (db w)).
  { intros e Hnew.
    rewrite (post_items_rejected message env payload nm w (mkDoc id None) e)
      by assumption.
    split; reflexivity. }
  repeat match goal with |- _ /\ _ => split end.
  1-5: intros; subst nm; apply Hcreated; reflexivity.
  - intros elems ->. eapply Hrejected; reflexivity.
  - intros fs -> Hno_id. eapply Hrejected. unfold new_Item. cbn.
    destruct (lookup "_id" fs) as [[| | | [| c rest] | |] |] eqn:Hl;
      try reflexivity.
    exfalso; eapply Hno_id; reflexivity.
  - intros fs c rest -> Hid. apply Hcreated. unfold new_Item. cbn.
    now rewrite Hid.
Qed.

Lemma post_stores_cast_name_witness :
  status (fst (post_items sample_message (calm 1700000000123)
                 (JObject [("name", JArray [JString "a"])]) stocked_world)) = 500
  /\ docs (db (snd (post_items sample_message (calm 1700000000123)
                      (JObject [("name", JArray [JString "a"])]) stocked_world)))
     = [widget; unnamed].
Proof.
  pose proof (post_stores_cast_name sample_message (calm 1700000000123)
                (JObject [("name", JArray [JString "a"])])
                (Some (JArray [JString "a"])) stocked_world
                eq_refl eq_refl eq_refl) as H.
  cbv zeta in H.
  exact (proj1 (proj2 (proj2 (proj2 (proj2 (proj2 H))))) [JString "a"] eq_refl).
Defined.

(** C7, as stated, fails: the number 42 sent as name is not stored as
    it is, but as the string "42". *)
Lemma post_number_is_stored_as_text :
  docs (db (snd (post_items sample_message (calm 1700000000123)
                   (JObject [("name", JNumber "42")]) fresh_world)))
  = [mkDoc 31359464925306237747317440518%N (Some (JString "42"))]
  /\ Some (JString "42") <> Some (JNumber "42").
Proof. split; [reflexivity | discriminate]. Qed.

Lemma new_Item_up_to_id (id1 id2 : ObjectId) (nm : option Json) :
  name (fields (new_Item id1 nm)) = name (fields (new_Item id2 nm))
  /\ invalid (new_Item id1 nm) = invalid (new_Item id2 nm).
Proof.
  unfold new_Item. destruct nm as [v |]; [ | split; reflexivity].
  destruct (castString "name" v); split; reflexivity.
Qed.

(** C10: POST /items reads nothing of the request body but its name:
    two bodies with the same name, served in the same environment and
    world, get the same answer (the same item under the same generated
    identifier) and leave the same world behind, whatever else they
    carry; every document of the collection afterwards is an old one or
    the item built from the generated identifier and that name, which but
    for its identifier is the same under any other identifier. *)
Theorem post_depends_only_on_name (message : Error -> string) (env : Env)
    (payload1 payload2 : Json) (w : World) :
  body_name payload1 = body_name payload2 ->
  post_items message env payload1 w = post_items message env payload2 w
  /\ (forall d, In d (docs (db (snd (post_items message env payload1 w)))) ->
       In d (docs (db w))
       \/ exists nm, body_name payload2 = Ok nm
                     /\ d = fields (new_Item (fst (newObjectId (now env) (bson w))) nm))
  /\ (forall nm id1 id2,
       name (fields (new_Item id1 nm)) = name (fields (new_Item id2 nm))).
Proof.
  intro Hname. split; [ | split].
  - unfold post_items. now rewrite Hname.
  - intros d. unfold post_items. rewrite Hname.
    destruct (body_name payload2) as [nm | e]; [ | now left].
    destruct (newObjectId (now env) (bson w)) as [id generator]; cbn [fst].
    unfold save. destruct (invalid (new_Item id nm)); [now left | ].
    destruct (driver_fault env); [now left | ].
    destruct (existsb _ _); [now left | ].
    cbn. intro Hin. apply in_app_or in Hin as [Hold | [<- | []]]; [now left | ].
    right. exists nm. split; reflexivity.
  - intros nm id1 id2. apply new_Item_up_to_id.
Qed.

Lemma post_depends_only_on_name_witness :
  body_name (JObject [("role", JString "admin"); ("name", JString "a"); ("_id", JNumber "1")])
  = body_name (JObject [("name", JString "a")])
  /\ post_items sample_message (calm 1700000000123)
       (JObject [("role", JString "admin"); ("name", JString "a"); ("_id", JNumber "1")])
       stocked_world
     = post_items sample_message (calm 1700000000123) (JObject [("name", JString "a")])
         stocked_world.
Proof.
  split; [reflexivity | ].
  exact (proj1 (post_depends_only_on_name sample_message (calm 1700000000123)
                  (JObject [("role", JString "admin"); ("name", JString "a");
                            ("_id", JNumber "1")])
                  (JObject [("name", JString "a")]) stocked_world eq_refl)).
Defined.

(** ** The metrics endpoint *)

Lemma handle_keeps_registry (message : Error -> string) (env : Env) (req : Request)
    (w : World) :
  registry (snd (handle message env req w)) = registry w.
Proof.
  destruct req as [| payload | | id payload | id |]; cbn [handle].
  - reflexivity.
  - unfold post_items. destruct (body_name payload); [ | reflexivity].
    destruct (newObjectId (now env) (bson w)) as [oid generator].
    destruct (save _ _ _) as [[saved | e] db']; reflexivity.
  - unfold get_items. destruct (find _ _) as [[items | e] db']; reflexivity.
  - unfold put_item. destruct (body_name payload); [ | reflexivity].
    destruct (findByIdAndUpdate _ _ _ _) as [[[item |] | e] db']; reflexivity.
  - unfold delete_item.
    destruct (findByIdAndDelete _ _ _) as [[[item |] | e] db']; reflexivity.
  - reflexivity.
Qed.

Lemma serve_keeps_registry (message : Error -> string) (reqs : list (Env * Request)) :
  forall w, registry (snd (serve message reqs w)) = registry w.
Proof.
  induction reqs as [| [env req] reqs IH]; intro w; cbn [serve].
  - reflexivity.
  - pose proof (handle_keeps_registry message env req w) as Hstep.
    destruct (handle message env req w) as [r w1]. cbn [snd] in Hstep.
    specialize (IH w1). destruct (serve message reqs w1) as [rs w2].
    cbn [snd] in *. congruence.
Qed.

(** Whatever requests were served since the process started, and
    whatever the collection held, GET /metrics is answered 200 with the
    exposition, in the text format, of a registry in which nothing was
    ever registered: a single line feed. *)
Lemma metrics_exposes_nothing (message : Error -> string) (stored : list Doc)
    (generator : Bson.State) (reqs : list (Env * Request)) (env : Env) :
  registry (snd (serve message reqs (startup stored generator))) = []
  /\ fst (handle message env GetMetrics
            (snd (serve message reqs (startup stored generator))))
     = mkResponse 200 (Text Prom.contentType Prom.LF).
Proof.
  pose proof (serve_keeps_registry message reqs (startup stored generator)) as Hreg.
  cbn [startup registry] in Hreg. split; [exact Hreg | ].
  cbn [handle get_metrics fst]. rewrite Hreg. reflexivity.
Qed.

(** C8, what the code does where the claim expects the library's
    default process metrics: the first request to GET /metrics of a
    process just started is answered 200 with a body that is one line
    feed, in which none of those metrics occurs ([server.js] never calls
    [collectDefaultMetrics()]). *)
Theorem metrics_first_request_has_no_metric :
  fst (handle sample_message (calm 0) GetMetrics fresh_world)
  = mkResponse 200 (Text Prom.contentType Prom.LF)
  /\ String.length Prom.LF = 1
  /\ forallb (fun metric => negb (Prom.mentions metric Prom.LF))
       Prom.default_process_metrics = true.
Proof. repeat split. Qed.

(** * Further properties of the routes *)

(** ** The effect of one request on the collection *)

Lemma castString_schema (path : string) (v s : Json) :
  castString path v = Ok s -> s = JNull \/ exists text, s = JString text.
Proof.
  destruct v as [| b | text | text | elems | fs]; cbn;
    try (intros [= <-]; (now left) || (right; eexists; reflexivity)).
  destruct (lookup "_id" fs) as [[| | | [| c rest] | |] |];
    try (intro H; discriminate H).
  intros [= <-]. right. eexists; reflexivity.
Qed.

Lemma new_Item_schema (id : ObjectId) (nm : option Json) :
  schema_name (fields (new_Item id nm)) = true.
Proof.
  unfold new_Item. destruct nm as [v |]; [ | reflexivity].
  destruct (castString "name" v) as [s | e] eqn:Hcast; [ | reflexivity].
  destruct (castString_schema _ _ _ Hcast) as [-> | [text ->]]; reflexivity.
Qed.

Lemma handle_effect (message : Error -> string) (env : Env) (req : Request) (w : World) :
  Effect (docs (db w)) req (fst (handle message env req w))
    (docs (db (snd (handle message env req w)))).
Proof.
  destruct req as [| payload | | id payload | id |]; cbn [handle].
  - apply Unchanged. now left.
  - unfold post_items. destruct (body_name payload) as [nm | e].
    2: { apply Unchanged. now right; right. }
    destruct (newObjectId (now env) (bson w)) as [oid generator].
    pose proof (new_Item_schema oid nm) as Hschema.
    unfold save. destruct (invalid (new_Item oid nm)).
    { apply Unchanged. now right; right. }
    destruct (driver_fault env).
    { apply Unchanged. now right; right. }
    destruct (existsb _ _) eqn:Hfresh.
    { apply Unchanged. now right; right. }
    cbn. now apply Created.
  - unfold get_items, find. destruct (driver_fault env); apply Unchanged;
      [now right; right | now left].
  - unfold put_item. destruct (body_name payload) as [nm | e].
    2: { apply Unchanged. now right; right. }
    unfold findByIdAndUpdate. destruct (castObjectId id) as [oid | e] eqn:Hid.
    2: { apply Unchanged. now right; right. }
    destruct nm as [v |].
    + destruct (castString "name" v) as [s | e] eqn:Hcast.
      2: { apply Unchanged. now right; right. }
      destruct (driver_fault env).
      { apply Unchanged. now right; right. }
      destruct (List.find (has_id oid) (docs (db w))) as [item |] eqn:Hfind; cbn.
      * apply (Updated _ id payload oid s item); try assumption.
        destruct (castString_schema _ _ _ Hcast) as [-> | [text ->]]; reflexivity.
      * rewrite update_first_absent by assumption. apply Unchanged. now right; left.
    + destruct (driver_fault env).
      { apply Unchanged. now right; right. }
      destruct (List.find (has_id oid) (docs (db w))); apply Unchanged;
        [now left | now right; left].
  - unfold delete_item, findByIdAndDelete.
    destruct (castObjectId id) as [oid | e] eqn:Hid.
    2: { apply Unchanged. now right; right. }
    destruct (driver_fault env).
    { apply Unchanged. now right; right. }
    destruct (List.find (has_id oid) (docs (db w))) as [item |] eqn:Hfind; cbn.
    + now apply (Deleted _ id oid item).
    + rewrite remove_first_absent by assumption. apply Unchanged. now right; left.
  - apply Unchanged. now left.
Qed.

(** ** Identifiers and sizes under updates and removals *)

Lemma absent_iff_not_in (oid : ObjectId) (ds : list Doc) :
  existsb (has_id oid) ds = false <-> ~ In oid (ids ds).
Proof.
  induction ds as [| d ds IH]; cbn.
  - tauto.
  - unfold has_id at 1. destruct (N.eqb_spec (_id d) oid) as [Heq | Hneq]; cbn.
    + split; [discriminate | intro H; exfalso; apply H; now left].
    + rewrite IH. tauto.
Qed.

Lemma find_has_id (oid : ObjectId) (ds : list Doc) (d : Doc) :
  List.find (has_id oid) ds = Some d -> In d ds /\ _id d = oid.
Proof.
  intro Hfind. apply find_some in Hfind as [Hin Hid].
  split; [exact Hin | now apply N.eqb_eq].
Qed.

Lemma ids_update_first (oid : ObjectId) (s : Json) (ds : list Doc) :
  ids (update_first oid (set_name s) ds) = ids ds.
Proof.
  unfold ids. induction ds as [| d ds IH]; cbn; [reflexivity | ].
  destruct (has_id oid d); cbn; [reflexivity | now rewrite IH].
Qed.

Lemma length_update_first (oid : ObjectId) (s : Json) (ds : list Doc) :
  List.length (update_first oid (set_name s) ds) = List.length ds.
Proof.
  rewrite <- (List.length_map _id), <- (List.length_map _id ds).
  exact (f_equal (@List.length _) (ids_update_first oid s ds)).
Qed.

Lemma length_remove_first (oid : ObjectId) (ds : list Doc) (d : Doc) :
  List.find (has_id oid) ds = Some d -> S (List.length (remove_first oid ds)) = List.length ds.
Proof.
  induction ds as [| a ds IH]; cbn; [discriminate | ].
  destruct (has_id oid a); [reflexivity | ]. intro H. cbn. now rewrite IH.
Qed.

Lemma in_ids_remove_first (oid x : ObjectId) (ds : list Doc) :
  In x (ids (remove_first oid ds)) -> In x (ids ds).
Proof.
  induction ds as [| a ds IH]; cbn; [tauto | ].
  destruct (has_id oid a); cbn; [now right | ]. intros [H | H]; [now left | right; auto].
Qed.

Lemma NoDup_ids_remove_first (oid : ObjectId) (ds : list Doc) :
  NoDup (ids ds) -> NoDup (ids (remove_first oid ds)).
Proof.
  induction ds as [| a ds IH]; cbn; intro Hnd; [exact Hnd | ].
  inversion Hnd as [| x xs Hnotin Hrest]; subst.
  destruct (has_id oid a); [exact Hrest | ]. cbn. constructor.
  - intro Hin. apply Hnotin. now apply in_ids_remove_first in Hin.
  - now apply IH.
Qed.

Lemma map_has_id_absent (oid : ObjectId) (f : Doc -> Doc) (ds : list Doc) :
  ~ In oid (ids ds) -> map (fun d => if has_id oid d then f d else d) ds = ds.
Proof.
  induction ds as [| a ds IH]; cbn; intro Hnotin; [reflexivity | ].
  unfold has_id at 1. destruct (N.eqb_spec (_id a) oid) as [Heq | Hneq].
  - exfalso. apply Hnotin. now left.
  - rewrite IH; [reflexivity | tauto].
Qed.

Lemma filter_has_id_absent (oid : ObjectId) (ds : list Doc) :
  ~ In oid (ids ds) -> filter (fun d => negb (has_id oid d)) ds = ds.
Proof.
  induction ds as [| a ds IH]; cbn; intro Hnotin; [reflexivity | ].
  unfold has_id at 1. destruct (N.eqb_spec (_id a) oid) as [Heq | Hneq]; cbn.
  - exfalso. apply Hnotin. now left.
  - rewrite IH; [reflexivity | tauto].
Qed.

(** With unique identifiers, the update of the first document of an
    identifier is the update of every one, and its removal the removal of
    every one. *)
Lemma update_first_unique (oid : ObjectId) (f : Doc -> Doc) (ds : list Doc) :
  NoDup (ids ds) ->
  update_first oid f ds = map (fun d => if has_id oid d then f d else d) ds.
Proof.
  induction ds as [| a ds IH]; cbn; intro Hnd; [reflexivity | ].
  inversion Hnd as [| x xs Hnotin Hrest]; subst.
  destruct (has_id oid a) eqn:Ha.
  - apply N.eqb_eq in Ha. rewrite Ha in Hnotin.
    now rewrite map_has_id_absent.
  - now rewrite IH.
Qed.

Lemma remove_first_unique (oid : ObjectId) (ds : list Doc) :
  NoDup (ids ds) ->
  remove_first oid ds = filter (fun d => negb (has_id oid d)) ds.
Proof.
  induction ds as [| a ds IH]; cbn; intro Hnd; [reflexivity | ].
  inversion Hnd as [| x xs Hnotin Hrest]; subst.
  destruct (has_id oid a) eqn:Ha; cbn.
  - apply N.eqb_eq in Ha. rewrite Ha in Hnotin.
    now rewrite filter_has_id_absent.
  - now rewrite IH.
Qed.

Lemma find_filter_out (oid : ObjectId) (ds : list Doc) :
  List.find (has_id oid) (filter (fun d => negb (has_id oid d)) ds) = None.
Proof.
  induction ds as [| a ds IH]; cbn; [reflexivity | ].
  destruct (has_id oid a) eqn:Ha; cbn; [exact IH | now rewrite Ha].
Qed.

(** ** Requests that fail *)

(** X1: a request answered 404 or 500 has left the collection exactly
    as it was, on every route and whatever made it fail. *)
Theorem failure_leaves_collection (message : Error -> string) (env : Env)
    (req : Request) (w : World) :
  status (fst (handle message env req w)) = 404
  \/ status (fst (handle message env req w)) = 500 ->
  docs (db (snd (handle message env req w))) = docs (db w).
Proof.
  intro Hstatus.
  destruct (handle_effect message env req w) as [req r _ | | | ];
    cbn [status] in Hstatus; try reflexivity;
    destruct Hstatus as [Hcode | Hcode]; discriminate Hcode.
Qed.

Lemma failure_leaves_collection_witness :
  status (fst (handle sample_message (mkEnv 0 (Some (DriverError "timed out")))
                 (PutItem id_widget (JObject [("name", JString "gadget")]))
                 stocked_world)) = 500
  /\ docs (db (snd (handle sample_message (mkEnv 0 (Some (DriverError "timed out")))
                      (PutItem id_widget (JObject [("name", JString "gadget")]))
                      stocked_world))) = [widget; unnamed].
Proof.
  split; [reflexivity | ].
  apply (failure_leaves_collection sample_message
           (mkEnv 0 (Some (DriverError "timed out")))
           (PutItem id_widget (JObject [("name", JString "gadget")])) stocked_world).
  right. reflexivity.
Defined.

Lemma delete_item_200 (message : Error -> string) (env : Env) (id : string) (w : World) :
  status (fst (delete_item message env id w)) = 200 ->
  exists oid item,
    castObjectId id = Ok oid
    /\ List.find (has_id oid) (docs (db w)) = Some item
    /\ docs (db (snd (delete_item message env id w))) = remove_first oid (docs (db w)).
Proof.
  unfold delete_item, findByIdAndDelete.
  destruct (castObjectId id) as [oid | e]; [ | discriminate].
  destruct (driver_fault env); [discriminate | ].
  destruct (List.find (has_id oid) (docs (db w))) as [item |] eqn:Hfind;
    [ | discriminate].
  intros _. exists oid, item. cbn. repeat split. exact Hfind.
Qed.

(** X2: the collection grows by one document exactly when a request is
    answered 201, shrinks by one exactly when a DELETE is answered 200,
    and no request changes its size otherwise. *)
Theorem collection_size (message : Error -> string) (env : Env) (req : Request)
    (w : World) :
  let r := fst (handle message env req w) in
  let after := List.length (docs (db (snd (handle message env req w)))) in
  let before := List.length (docs (db w)) in
  (status r = 201 <-> after = S before)
  /\ ((exists id, req = DeleteItem id) /\ status r = 200 <-> S after = before)
  /\ (after = before \/ after = S before \/ S after = before).
Proof.
  cbv zeta. split; [ | split].
  - destruct (handle_effect message env req w)
      as [req r Hstatus | payload d | id payload oid s item Hid Hfind
          | id oid item Hid Hfind]; cbn [status].
    + split; [ | lia]. destruct Hstatus as [H | [H | H]]; rewrite H; discriminate.
    + rewrite List.length_app. cbn. split; [lia | reflexivity].
    + rewrite length_update_first. split; [discriminate | lia].
    + pose proof (length_remove_first oid _ item Hfind). split; [discriminate | lia].
  - split.
    + intros [[id ->] H200]. cbn [handle] in *.
      destruct (delete_item_200 message env id w H200) as (oid & item & _ & Hfind & ->).
      now apply (length_remove_first oid _ item).
    + destruct (handle_effect message env req w)
        as [req r Hstatus | payload d | id payload oid s item Hid Hfind
            | id oid item Hid Hfind]; cbn [status].
      * lia.
      * rewrite List.length_app. cbn. lia.
      * rewrite length_update_first. lia.
      * intros _. split; [eexists; reflexivity | reflexivity].
  - destruct (handle_effect message env req w)
      as [req r Hstatus | payload d | id payload oid s item Hid Hfind
          | id oid item Hid Hfind].
    + now left.
    + right; left. rewrite List.length_app. cbn. lia.
    + left. apply length_update_first.
    + right; right. now apply (length_remove_first oid _ item).
Qed.

(** ** Invariants of the collection over any sequence of requests *)

Lemma serve_invariant (message : Error -> string) (P : list Doc -> Prop) :
  (forall env req w, P (docs (db w)) -> P (docs (db (snd (handle message env req w))))) ->
  forall reqs w, P (docs (db w)) -> P (docs (db (snd (serve message reqs w)))).
Proof.
  intros Hstep reqs. induction reqs as [| [env req] reqs IH]; intros w Hw; cbn [serve].
  - exact Hw.
  - pose proof (Hstep env req w Hw) as Hnext.
    destruct (handle message env req w) as [r w1]. cbn [snd] in Hnext.
    specialize (IH w1 Hnext). destruct (serve message reqs w1) as [rs w2].
    exact IH.
Qed.

(** X3: identifiers stay unique: if no two documents of the collection
    share an identifier, none do after any sequence of requests, whatever
    the requests, the clock and the driver do. *)
Theorem identifiers_stay_unique (message : Error -> string)
    (reqs : list (Env * Request)) (w : World) :
  NoDup (ids (docs (db w))) ->
  NoDup (ids (docs (db (snd (serve message reqs w))))).
Proof.
  apply (serve_invariant message (fun ds => NoDup (ids ds))).
  clear reqs w. intros env req w Hnd.
  destruct (handle_effect message env req w)
    as [req r Hstatus | payload d Hfresh Hschema | id payload oid s item Hid Hfind Hschema
        | id oid item Hid Hfind].
  - exact Hnd.
  - unfold ids. rewrite map_app. cbn.
    apply NoDup_app; [exact Hnd | repeat constructor; intros [] | ].
    intros x Hin [<- | []]. now apply (absent_iff_not_in (_id d)) in Hfresh.
  - now rewrite ids_update_first.
  - now apply NoDup_ids_remove_first.
Qed.

Lemma identifiers_stay_unique_witness :
  NoDup (ids (docs (db stocked_world)))
  /\ NoDup (ids (docs (db (snd (serve sample_message
                                  [ (calm 7, PostItems (JObject [("name", JNull)]));
                                    (calm 8, PutItem id_widget (JObject []));
                                    (calm 9, DeleteItem id_widget) ]
                                  stocked_world))))).
Proof.
  assert (Hstart : NoDup (ids (docs (db stocked_world)))).
  { cbn. repeat constructor; cbn; intuition discriminate. }
  split; [exact Hstart | ].
  exact (identifiers_stay_unique sample_message _ stocked_world Hstart).
Defined.

Lemma schema_name_update_first (oid : ObjectId) (s : Json) (ds : list Doc) :
  (forall d, In d ds -> schema_name d = true) ->
  (forall d, schema_name (set_name s d) = true) ->
  forall d, In d (update_first oid (set_name s) ds) -> schema_name d = true.
Proof.
  intros Hall Hset. induction ds as [| a ds IH]; cbn; [tauto | ].
  assert (Hrest : forall x, In x ds -> schema_name x = true)
    by (intros x Hx; apply Hall; now right).
  destruct (has_id oid a); cbn; intros d [<- | Hin]; auto.
  apply Hall. now left.
Qed.

Lemma in_remove_first (oid : ObjectId) (ds : list Doc) (d : Doc) :
  In d (remove_first oid ds) -> In d ds.
Proof.
  induction ds as [| a ds IH]; cbn; [tauto | ].
  destruct (has_id oid a); cbn; [now right | ]. intros [H | H]; [now left | right; auto].
Qed.

(** X4: the schema holds over any sequence of requests: if every stored
    name is absent, null or a string, it still is afterwards; no request
    body can bring a number, a boolean, an array or an object into a
    stored name. *)
Theorem stored_names_stay_text (message : Error -> string)
    (reqs : list (Env * Request)) (w : World) :
  (forall d, In d (docs (db w)) -> schema_name d = true) ->
  forall d, In d (docs (db (snd (serve message reqs w)))) -> schema_name d = true.
Proof.
  apply (serve_invariant message (fun ds => forall d, In d ds -> schema_name d = true)).
  clear reqs w. intros env req w Hall.
  destruct (handle_effect message env req w)
    as [req r Hstatus | payload d Hfresh Hschema | id payload oid s item Hid Hfind Hschema
        | id oid item Hid Hfind].
  - exact Hall.
  - intros x Hin. apply in_app_or in Hin as [Hold | [<- | []]]; auto.
  - apply schema_name_update_first; [exact Hall | ].
    intro x. revert Hschema. unfold schema_name, set_name. cbn. auto.
  - intros x Hin. apply Hall. now apply in_remove_first in Hin.
Qed.

Lemma stored_names_stay_text_witness :
  (forall d, In d (docs (db stocked_world)) -> schema_name d = true)
  /\ (forall d,
        In d (docs (db (snd (serve sample_message
                               [ (calm 7, PostItems (JObject [("name", JNumber "3")]));
                                 (calm 8, PutItem id_widget
                                            (JObject [("name", JBool true)])) ]
                               stocked_world)))) ->
        schema_name d = true).
Proof.
  assert (Hstart : forall d, In d (docs (db stocked_world)) -> schema_name d = true).
  { cbn. intros d [<- | [<- | []]]; reflexivity. }
  split; [exact Hstart | ].
  exact (stored_names_stay_text sample_message _ stocked_world Hstart).
Defined.

(** ** Updates *)

Lemma update_first_pointwise (oid : ObjectId) (s : Json) (ds : list Doc) :
  Forall2 (fun d d' => _id d' = _id d /\ (has_id oid d = false -> d' = d))
    ds (update_first oid (set_name s) ds).
Proof.
  induction ds as [| a ds IH]; cbn; [constructor | ].
  destruct (has_id oid a) eqn:Ha.
  - constructor; [split; [reflexivity | congruence] | ].
    clear. induction ds as [| b ds IH]; constructor; auto.
  - constructor; [split; reflexivity | exact IH].
Qed.

Lemma unchanged_pointwise (P : Doc -> Prop) (ds : list Doc) :
  Forall2 (fun d d' => _id d' = _id d /\ (P d -> d' = d)) ds ds.
Proof. induction ds as [| a ds IH]; constructor; auto. Qed.

(** X5: only the name is mutable, and only of the addressed item: after
    PUT /items/:id, whatever its answer, the collection holds the same
    identifiers in the same order, and every document whose identifier is
    not the one the path casts to is the document it was. *)
Theorem put_changes_one_name_at_most (message : Error -> string) (env : Env)
    (id : string) (payload : Json) (w : World) :
  Forall2 (fun d d' => _id d' = _id d /\ (castObjectId id <> Ok (_id d) -> d' = d))
    (docs (db w)) (docs (db (snd (put_item message env id payload w)))).
Proof.
  unfold put_item. destruct (body_name payload) as [nm | e];
    [ | apply unchanged_pointwise].
  unfold findByIdAndUpdate. destruct (castObjectId id) as [oid | e] eqn:Hid;
    [ | apply unchanged_pointwise].
  destruct nm as [v |].
  - destruct (castString "name" v) as [s | e]; [ | apply unchanged_pointwise].
    destruct (driver_fault env); [apply unchanged_pointwise | ].
    destruct (List.find (has_id oid) (docs (db w))) as [found |]; cbn;
      (eapply Forall2_impl; [ | apply update_first_pointwise]);
      intros d d' [Hsame Hother]; (split; [exact Hsame | ]);
      intro Hneq; apply Hother; unfold has_id;
      destruct (N.eqb_spec (_id d) oid) as [Heq | Hne]; try reflexivity;
      exfalso; apply Hneq; now rewrite Heq.
  - destruct (driver_fault env); [apply unchanged_pointwise | ].
    destruct (List.find (has_id oid) (docs (db w))); apply unchanged_pointwise.
Qed.

(** X6: an update is read back: on a collection with unique identifiers,
    PUT /items/:id with a name the schema accepts, addressed to an item,
    is answered 200 with that item under its new name, and a GET /items
    after it lists the collection in its order with that one name
    replaced (the driver carrying both commands). *)
Theorem put_then_list (message : Error -> string) (e1 e2 : Env) (id : string)
    (oid : ObjectId) (payload v s : Json) (item : Doc) (w : World) :
  NoDup (ids (docs (db w))) ->
  castObjectId id = Ok oid ->
  List.find (has_id oid) (docs (db w)) = Some item ->
  body_name payload = Ok (Some v) ->
  castString "name" v = Ok s ->
  driver_fault e1 = None -> driver_fault e2 = None ->
  fst (serve message [(e1, PutItem id payload); (e2, GetItems)] w)
  = [ mkResponse 200 (MessageItem "Item updated" (mkDoc oid (Some s)));
      mkResponse 200
        (Items (map (fun d => if has_id oid d then mkDoc oid (Some s) else d)
                  (docs (db w)))) ].
Proof.
  intros Hnd Hid Hfind Hbody Hcast H1 H2. cbn [serve handle].
  rewrite (put_item_updated message e1 id oid payload v s item w) by assumption.
  rewrite get_items_listed by assumption.
  cbn [fst db docs]. destruct (find_has_id _ _ _ Hfind) as [_ Hitem].
  rewrite update_first_unique by assumption.
  unfold set_name. rewrite Hitem.
  rewrite (map_ext_in _ (fun d => if has_id oid d then mkDoc oid (Some s) else d));
    [reflexivity | ].
  intros d _. unfold has_id.
  destruct (N.eqb_spec (_id d) oid) as [-> | _]; reflexivity.
Qed.

Lemma put_then_list_witness :
  fst (serve sample_message
         [ (calm 1, PutItem id_widget (JObject [("name", JNumber "12")]));
           (calm 2, GetItems) ] stocked_world)
  = [ mkResponse 200 (MessageItem "Item updated" (mkDoc 1%N (Some (JString "12"))));
      mkResponse 200 (Items [mkDoc 1%N (Some (JString "12")); unnamed]) ].
Proof.
  assert (Hstart : NoDup (ids (docs (db stocked_world)))).
  { cbn. repeat constructor; cbn; intuition discriminate. }
  exact (put_then_list sample_message (calm 1) (calm 2) id_widget 1%N
           (JObject [("name", JNumber "12")]) (JNumber "12") (JString "12") widget
           stocked_world Hstart eq_refl eq_refl eq_refl eq_refl eq_refl eq_refl).
Defined.

Lemma update_first_twice (oid : ObjectId) (s : Json) (ds : list Doc) :
  update_first oid (set_name s) (update_first oid (set_name s) ds)
  = update_first oid (set_name s) ds.
Proof.
  induction ds as [| a ds IH]; cbn; [reflexivity | ].
  destruct (has_id oid a) eqn:Ha; cbn.
  - unfold has_id in *. cbn. now rewrite Ha.
  - now rewrite Ha, IH.
Qed.

Lemma find_update_first (oid : ObjectId) (s : Json) (ds : list Doc) :
  List.find (has_id oid) (update_first oid (set_name s) ds)
  = option_map (set_name s) (List.find (has_id oid) ds).
Proof.
  induction ds as [| a ds IH]; cbn; [reflexivity | ].
  destruct (has_id oid a) eqn:Ha; cbn.
  - unfold has_id in *. cbn. now rewrite Ha.
  - now rewrite Ha, IH.
Qed.

(** X7: PUT is idempotent: the same PUT served twice in a row, the
    driver behaving alike, gets the same answer twice and leaves the
    collection as the first one left it. *)
Theorem put_twice (message : Error -> string) (e1 e2 : Env) (id : string)
    (payload : Json) (w : World) :
  driver_fault e1 = driver_fault e2 ->
  let once := put_item message e1 id payload w in
  let twice := put_item message e2 id payload (snd once) in
  fst twice = fst once /\ docs (db (snd twice)) = docs (db (snd once)).
Proof.
  intro Hfault. cbv zeta. unfold put_item.
  destruct (body_name payload) as [nm | e]; [ | split; reflexivity].
  unfold findByIdAndUpdate. rewrite <- Hfault.
  destruct (castObjectId id) as [oid | e]; [ | split; reflexivity].
  destruct nm as [v |].
  - destruct (castString "name" v) as [s | e]; [ | split; reflexivity].
    destruct (driver_fault e1); [split; reflexivity | ].
    destruct (List.find (has_id oid) (docs (db w))) as [item |] eqn:Hfind;
      cbn [fst snd db docs option_map];
      rewrite find_update_first, update_first_twice, Hfind; cbn;
      split; reflexivity.
  - destruct (driver_fault e1); [split; reflexivity | ].
    destruct (List.find (has_id oid) (docs (db w))) as [item |] eqn:Hfind; cbn;
      rewrite Hfind; split; reflexivity.
Qed.

Lemma put_twice_witness :
  fst (put_item sample_message (calm 2) id_widget (JObject [("name", JString "b")])
         (snd (put_item sample_message (calm 1) id_widget
                 (JObject [("name", JString "b")]) stocked_world)))
  = fst (put_item sample_message (calm 1) id_widget (JObject [("name", JString "b")])
           stocked_world)
  /\ docs (db (snd (put_item sample_message (calm 2) id_widget
                      (JObject [("name", JString "b")])
                      (snd (put_item sample_message (calm 1) id_widget
                              (JObject [("name", JString "b")]) stocked_world)))))
     = [mkDoc 1%N (Some (JString "b")); unnamed].
Proof.
  exact (put_twice sample_message (calm 1) (calm 2) id_widget
           (JObject [("name", JString "b")]) stocked_world eq_refl).
Defined.

(** ** Removals *)

(** X8: a deleted item is gone: on a collection with unique
    identifiers, a DELETE answered 200 has removed every document of that
    identifier and nothing else, in place; the same DELETE repeated is
    answered 404 and changes nothing (the driver carrying it). *)
Theorem delete_then_delete (message : Error -> string) (e1 e2 : Env) (id : string)
    (w : World) :
  NoDup (ids (docs (db w))) ->
  status (fst (delete_item message e1 id w)) = 200 ->
  driver_fault e2 = None ->
  exists oid,
    castObjectId id = Ok oid
    /\ docs (db (snd (delete_item message e1 id w)))
       = filter (fun d => negb (has_id oid d)) (docs (db w))
    /\ fst (delete_item message e2 id (snd (delete_item message e1 id w)))
       = mkResponse 404 (Message "Item not found")
    /\ docs (db (snd (delete_item message e2 id (snd (delete_item message e1 id w)))))
       = docs (db (snd (delete_item message e1 id w))).
Proof.
  intros Hnd H200 Hfault.
  destruct (delete_item_200 message e1 id w H200) as (oid & item & Hid & Hfind & Hdocs).
  exists oid. rewrite Hdocs, remove_first_unique by assumption.
  split; [exact Hid | ]. split; [reflexivity | ].
  assert (Hgone : List.find (has_id oid) (docs (db (snd (delete_item message e1 id w))))
                  = None)
    by (rewrite Hdocs, remove_first_unique by assumption; apply find_filter_out).
  unfold delete_item at 1 3, findByIdAndDelete. rewrite Hid, Hfault, Hgone. cbn.
  split; [reflexivity | ].
  rewrite remove_first_absent by exact Hgone.
  rewrite Hdocs. now rewrite remove_first_unique.
Qed.

Lemma delete_then_delete_witness :
  status (fst (delete_item sample_message (calm 1) id_widget stocked_world)) = 200
  /\ docs (db (snd (delete_item sample_message (calm 1) id_widget stocked_world)))
     = [unnamed]
  /\ fst (delete_item sample_message (calm 2) id_widget
            (snd (delete_item sample_message (calm 1) id_widget stocked_world)))
     = mkResponse 404 (Message "Item not found").
Proof.
  assert (Hstart : NoDup (ids (docs (db stocked_world)))).
  { cbn. repeat constructor; cbn; intuition discriminate. }
  split; [reflexivity | ].
  destruct (delete_then_delete sample_message (calm 1) (calm 2) id_widget stocked_world
              Hstart eq_refl eq_refl) as (oid & Hid & Hdocs & Hagain & _).
  split; [reflexivity | exact Hagain].
Defined.

(** ** Creations *)

(** X9: a created item is listed: after a POST /items answered 201, GET
    /items lists the collection as it was followed by the returned item;
    so on an empty collection, creating an item named by a string and
    listing gives exactly one item, of that name (the driver carrying the
    listing). *)
Theorem post_then_list (message : Error -> string) (e1 e2 : Env) (payload : Json)
    (w : World) :
  status (fst (post_items message e1 payload w)) = 201 ->
  driver_fault e2 = None ->
  exists item,
    fst (serve message [(e1, PostItems payload); (e2, GetItems)] w)
    = [ mkResponse 201 (MessageItem "Item created" item);
        mkResponse 200 (Items (docs (db w) ++ [item])) ]
    /\ ~ In (_id item) (ids (docs (db w)))
    /\ (forall text, body_name payload = Ok (Some (JString text)) ->
        name item = Some (JString text))
    /\ (docs (db w) = [] ->
        fst (serve message [(e1, PostItems payload); (e2, GetItems)] w)
        = [ mkResponse 201 (MessageItem "Item created" item);
            mkResponse 200 (Items [item]) ]).
Proof.
  intros H201 Hfault.
  assert (Hpost := H201). unfold post_items in Hpost.
  destruct (body_name payload) as [nm | e] eqn:Hbody; [ | discriminate].
  destruct (newObjectId (now e1) (bson w)) as [oid generator] eqn:Hnew.
  unfold save in Hpost.
  destruct (invalid (new_Item oid nm)) eqn:Hvalid; [discriminate | ].
  destruct (driver_fault e1) eqn:H1; [discriminate | ].
  destruct (existsb (has_id (_id (fields (new_Item oid nm)))) (docs (db w))) eqn:Hfresh;
    [discriminate | ].
  clear Hpost. exists (fields (new_Item oid nm)).
  assert (Hserve :
            fst (serve message [(e1, PostItems payload); (e2, GetItems)] w)
            = [ mkResponse 201 (MessageItem "Item created" (fields (new_Item oid nm)));
                mkResponse 200 (Items (docs (db w) ++ [fields (new_Item oid nm)])) ]).
  { cbn [serve handle].
    rewrite (post_items_created message e1 payload nm w (fields (new_Item oid nm)));
      try assumption.
    - rewrite get_items_listed by assumption. reflexivity.
    - rewrite Hnew. cbn [fst]. destruct (new_Item oid nm) as [d i]. cbn in *.
      now rewrite Hvalid. }
  split; [exact Hserve | ]. split; [now apply absent_iff_not_in | ]. split.
  - intros text [= ->]. reflexivity.
  - intro Hempty. rewrite Hserve, Hempty. reflexivity.
Qed.

Lemma post_then_list_witness :
  status (fst (post_items sample_message (calm 1700000000123)
                 (JObject [("name", JString "widget")]) fresh_world)) = 201
  /\ exists item,
       fst (serve sample_message
              [ (calm 1700000000123, PostItems (JObject [("name", JString "widget")]));
                (calm 1700000000456, GetItems) ] fresh_world)
       = [ mkResponse 201 (MessageItem "Item created" item);
           mkResponse 200 (Items [item]) ]
       /\ name item = Some (JString "widget").
Proof.
  split; [reflexivity | ].
  destruct (post_then_list sample_message (calm 1700000000123) (calm 1700000000456)
              (JObject [("name", JString "widget")]) fresh_world eq_refl eq_refl)
    as (item & _ & _ & Hname & Hempty).
  exists item. split; [exact (Hempty eq_refl) | exact (Hname "widget" eq_refl)].
Defined.

(** ** Identifiers in the path *)

Lemma fromString_length (id : string) :
  String.length id <> 24%nat -> fromString id = None.
Proof.
  intro Hlen. unfold fromString.
  destruct (Nat.eqb_spec (String.length id) 24); [contradiction | reflexivity].
Qed.

(** X10: an identifier in the path that is not twenty-four characters
    long is never looked up: PUT (with a body that is not null) and
    DELETE are answered 500 with the message of the ObjectId cast error,
    never 404, whatever the collection holds and whether or not the
    driver works, and the collection is as it was. *)
Theorem malformed_id_is_500 (message : Error -> string) (env : Env) (id : string)
    (payload : Json) (w : World) :
  String.length id <> 24%nat ->
  payload <> JNull ->
  fst (delete_item message env id w)
  = mkResponse 500 (ErrorBody (message (CastError "ObjectId" (JString id) "_id")))
  /\ fst (put_item message env id payload w)
     = mkResponse 500 (ErrorBody (message (CastError "ObjectId" (JString id) "_id")))
  /\ docs (db (snd (delete_item message env id w))) = docs (db w)
  /\ docs (db (snd (put_item message env id payload w))) = docs (db w).
Proof.
  intros Hlen Hbody. apply fromString_length in Hlen.
  assert (Hname : exists nm, body_name payload = Ok nm).
  { unfold body_name, prop. destruct payload; try (eexists; reflexivity).
    contradiction. }
  destruct Hname as [nm Hname].
  unfold delete_item, put_item, findByIdAndDelete, findByIdAndUpdate, castObjectId.
  rewrite Hname, Hlen. repeat split.
Qed.

Lemma malformed_id_is_500_witness :
  fst (delete_item sample_message (mkEnv 0 (Some (DriverError "connection closed")))
         "42" stocked_world)
  = mkResponse 500 (ErrorBody "CastError: ObjectId at _id")
  /\ fst (put_item sample_message (calm 0) "42" (JObject []) stocked_world)
     = mkResponse 500 (ErrorBody "CastError: ObjectId at _id").
Proof.
  split.
  - apply (malformed_id_is_500 sample_message
             (mkEnv 0 (Some (DriverError "connection closed"))) "42" (JObject [])
             stocked_world); [intro H; discriminate H | intro H; discriminate H].
  - apply (malformed_id_is_500 sample_message (calm 0) "42" (JObject [])
             stocked_world); [intro H; discriminate H | intro H; discriminate H].
Defined.

(** ** Start-up *)

Lemma dotenv_config_twice (file env : Config.Variables) (key : string) :
  Config.dotenv_config file (Config.dotenv_config file env) key
  = Config.dotenv_config file env key.
Proof.
  unfold Config.dotenv_config. destruct (env key) as [v |]; [reflexivity | ].
  destruct (file key); reflexivity.
Qed.

(** X12: the documentation names the service's own address: the one
    server the OpenAPI options list is the address the start-up log
    announces for the port handed to [app.listen], for every environment
    and every [.env] file, and the documentation's address is that one
    followed by [/api-docs]. *)
Theorem documented_server_is_service (file env : Config.Variables) :
  Config.servers (Config.documented (Config.boot file env))
  = [Config.service_address (Config.boot file env)]
  /\ Config.service_address (Config.boot file env)
     = Config.localhost (Config.listen (Config.boot file env))
  /\ Config.docs_address (Config.boot file env)
     = Config.service_address (Config.boot file env) ++ "/api-docs".
Proof.
  unfold Config.boot, Config.swagger. cbn. unfold Config.PORT.
  rewrite dotenv_config_twice. repeat split.
Qed.

(** X13: where the port comes from: a non-empty PORT of the process
    environment is the port, whatever the [.env] file says; a PORT set to
    the empty string hides the file's and leaves the default 3000; with
    no PORT in the environment the file's non-empty PORT is the port, and
    3000 otherwise. *)
Theorem port_precedence (file env : Config.Variables) :
  (forall c rest, env "PORT" = Some (String c rest) ->
   Config.listen (Config.boot file env) = Config.PortText (String c rest))
  /\ (env "PORT" = Some EmptyString ->
      Config.listen (Config.boot file env) = Config.PortNumber 3000)
  /\ (env "PORT" = None ->
      forall c rest, file "PORT" = Some (String c rest) ->
      Config.listen (Config.boot file env) = Config.PortText (String c rest))
  /\ (env "PORT" = None ->
      file "PORT" = None \/ file "PORT" = Some EmptyString ->
      Config.listen (Config.boot file env) = Config.PortNumber 3000
      /\ Config.service_address (Config.boot file env) = "http://localhost:3000").
Proof.
  unfold Config.boot, Config.swagger. cbn. unfold Config.PORT.
  rewrite dotenv_config_twice. unfold Config.dotenv_config.
  split; [ | split; [ | split]].
  - intros c rest ->. reflexivity.
  - intros ->. reflexivity.
  - intros -> c rest ->. reflexivity.
  - intros -> [-> | ->]; split; reflexivity.
Qed.

Lemma port_precedence_witness :
  Config.listen
    (Config.boot (fun key => if String.eqb key "PORT" then Some "8080" else None)
       (fun key => if String.eqb key "PORT" then Some "" else None))
  = Config.PortNumber 3000
  /\ Config.listen
       (Config.boot (fun key => if String.eqb key "PORT" then Some "8080" else None)
          (fun _ => None))
     = Config.PortText "8080".
Proof.
  split.
  - exact (proj1 (proj2 (port_precedence
                           (fun key => if String.eqb key "PORT" then Some "8080" else None)
                           (fun key => if String.eqb key "PORT" then Some "" else None)))
             eq_refl).
  - exact (proj1 (proj2 (proj2 (port_precedence
                           (fun key => if String.eqb key "PORT" then Some "8080" else None)
                           (fun _ => None))))
             eq_refl "8"%char "080" eq_refl).
Defined.

(** ** One model operation per request *)

(** X14: every request to an items route with a body that is not null
    invokes exactly one model operation, whether it is answered 200, 201,
    404 or 500: the operation of its route, on the arguments of the
    request; GET /fast and GET /metrics invoke none. *)
Theorem one_operation_per_request (message : Error -> string) (env : Env)
    (req : Request) (w : World) :
  (forall id, req <> PutItem id JNull) -> req <> PostItems JNull ->
  match req with
  | PostItems payload =>
      exists d nm, body_name payload = Ok nm
                   /\ d = fields (new_Item (fst (newObjectId (now env) (bson w))) nm)
                   /\ calls (db (snd (handle message env req w))) = Save d :: calls (db w)
  | GetItems => calls (db (snd (handle message env req w))) = Find :: calls (db w)
  | PutItem id payload =>
      exists nm, body_name payload = Ok nm
                 /\ calls (db (snd (handle message env req w)))
                    = FindByIdAndUpdate id nm :: calls (db w)
  | DeleteItem id =>
      calls (db (snd (handle message env req w))) = FindByIdAndDelete id :: calls (db w)
  | GetFast | GetMetrics => calls (db (snd (handle message env req w))) = calls (db w)
  end.
Proof.
  intros Hput Hpost.
  assert (Hname : forall payload, payload <> JNull -> exists nm, body_name payload = Ok nm).
  { intros payload Hp. unfold body_name, prop.
    destruct payload; try (eexists; reflexivity). contradiction. }
  destruct req as [| payload | | id payload | id |]; cbn [handle].
  - reflexivity.
  - destruct (Hname payload) as [nm Hnm]; [intros ->; now apply Hpost | ].
    unfold post_items. rewrite Hnm.
    destruct (newObjectId (now env) (bson w)) as [oid generator]. cbn [fst].
    pose proof (save_records (driver_fault env) (new_Item oid nm) (db w)) as Hcalls.
    exists (fields (new_Item oid nm)), nm. split; [reflexivity | split; [reflexivity | ]].
    destruct (save _ _ _) as [[saved | e] db']; exact Hcalls.
  - unfold get_items.
    pose proof (find_records (driver_fault env) (db w)) as Hcalls.
    destruct (find _ _) as [[items | e] db']; exact Hcalls.
  - destruct (Hname payload) as [nm Hnm]; [intros ->; now apply (Hput id) | ].
    unfold put_item. rewrite Hnm. exists nm. split; [reflexivity | ].
    pose proof (findByIdAndUpdate_records (driver_fault env) id nm (db w)) as Hcalls.
    destruct (findByIdAndUpdate _ _ _ _) as [[[item |] | e] db']; exact Hcalls.
  - unfold delete_item.
    pose proof (findByIdAndDelete_records (driver_fault env) id (db w)) as Hcalls.
    destruct (findByIdAndDelete _ _ _) as [[[item |] | e] db']; exact Hcalls.
  - reflexivity.
Qed.

Lemma one_operation_per_request_witness :
  calls (db (snd (handle sample_message (calm 0) (DeleteItem id_beef) stocked_world)))
  = [FindByIdAndDelete id_beef]
  /\ exists nm,
       body_name (JObject [("name", JString "b")]) = Ok nm
       /\ calls (db (snd (handle sample_message
                            (mkEnv 0 (Some (DriverError "connection closed")))
                            (PutItem id_widget (JObject [("name", JString "b")]))
                            stocked_world)))
          = [FindByIdAndUpdate id_widget nm].
Proof.
  split.
  - apply (one_operation_per_request sample_message (calm 0) (DeleteItem id_beef)
             stocked_world); [intros id H; discriminate H | intro H; discriminate H].
  - apply (one_operation_per_request sample_message
             (mkEnv 0 (Some (DriverError "connection closed")))
             (PutItem id_widget (JObject [("name", JString "b")])) stocked_world);
      [intros id H; discriminate H | intro H; discriminate H].
Defined.
